(** * nitpick: navigation core, item adapters and fetch ordering

    A shallow embedding of the Go sources

      - internal/ui/items.go          (module [ui])
      - internal/prompt/generator.go  (module [prompt], line ranges only)
      - internal/github client        (module [ghclient])
      - internal/app/app.go           (modules [app] and [detail])

    Go values are modelled as follows.  An [int] is a [Z]; where the
    program does arithmetic on it ([app.isub]) the 64-bit wrap-around is
    written out.  A [string] is a byte string.  A pointer field of a
    go-github struct is an [option]; the generated [GetX] accessors return
    the zero value for [nil].  An [error] is its message.  The Bubble Tea
    runtime, the bubbles widgets, lipgloss, the clipboard and [sort.Slice]
    are libraries outside the repository: they enter as operations of a
    class ([app.Env], [ghclient.Sorter], [ghclient.Service]); the laws
    that a proof needs are separate classes, and module [sim] holds
    executable instances. *)

From Stdlib Require Import ZArith List String Ascii Bool Lia.
From Stdlib Require Import DecimalString Permutation Sorted.
Import ListNotations.

Open Scope Z_scope.

(* ================================================================= *)
(** ** Formatting helpers ([fmt], [strings], [time]) *)

Module gofmt.

Open Scope string_scope.

(** [%d] of an [int]. *)
Definition itoa (z : Z) : string := NilZero.string_of_int (Z.to_int z).

(** [strings.Join(elems, sep)]. *)
Fixpoint Join (elems : list string) (sep : string) : string :=
  match elems with
  | [] => ""
  | [x] => x
  | x :: rest => x ++ sep ++ Join rest sep
  end.

(** [strings.Split(s, sep)] for a one-byte separator; [cur] holds the
    bytes of the piece being read, most recent first. *)
Fixpoint rev_string (acc s : string) : string :=
  match s with
  | EmptyString => acc
  | String c s' => rev_string (String c acc) s'
  end.

Fixpoint split_on (sep : ascii) (cur s : string) : list string :=
  match s with
  | EmptyString => [rev_string "" cur]
  | String c s' =>
      if Ascii.eqb c sep then rev_string "" cur :: split_on sep "" s'
      else split_on sep (String c cur) s'
  end.

Definition Split (s : string) (sep : ascii) : list string := split_on sep "" s.

(** Zero padding to a width, as the [01], [02], [15], [04] and [2006]
    verbs of a time layout do. *)
Fixpoint zeros (n : nat) : string :=
  match n with
  | O => ""
  | S k => "0" ++ zeros k
  end.

Definition pad (width : nat) (z : Z) : string :=
  let s := itoa z in
  zeros (width - String.length s) ++ s.

End gofmt.

(** A [time.Time] in UTC, as nanoseconds since the Unix epoch; the
    timestamps of the hosting API are RFC 3339 instants with a [Z]
    suffix, which [time.Parse] places in UTC. *)
Module time.

Open Scope string_scope.

Definition Time := Z.

Definition nanos_per_second : Z := 1000000000.
Definition seconds_per_day : Z := 86400.

Definition unix_seconds (t : Time) : Z := t / nanos_per_second.

(** Proleptic Gregorian date of a day count since 1970-01-01. *)
Definition civil_from_days (days : Z) : Z * Z * Z :=
  let z := days + 719468 in
  let era := z / 146097 in
  let doe := z - era * 146097 in
  let yoe := (doe - doe / 1460 + doe / 36524 - doe / 146096) / 365 in
  let y := yoe + era * 400 in
  let doy := doe - (365 * yoe + yoe / 4 - yoe / 100) in
  let mp := (5 * doy + 2) / 153 in
  let d := doy - (153 * mp + 2) / 5 + 1 in
  let m := if (mp <? 10)%Z then mp + 3 else mp - 9 in
  (if (m <=? 2)%Z then y + 1 else y, m, d).

Definition date_string (t : Time) : string :=
  let '(y, m, d) := civil_from_days (unix_seconds t / seconds_per_day) in
  gofmt.pad 4 y ++ "-" ++ gofmt.pad 2 m ++ "-" ++ gofmt.pad 2 d.

Definition clock_string (t : Time) : string :=
  let s := unix_seconds t mod seconds_per_day in
  gofmt.pad 2 (s / 3600) ++ ":" ++ gofmt.pad 2 ((s mod 3600) / 60).

(** [t.Format(layout)] for the two layouts the program uses. *)
Definition Format (t : Time) (layout : string) : string :=
  if String.eqb layout "2006-01-02" then date_string t
  else if String.eqb layout "2006-01-02 15:04" then date_string t ++ " " ++ clock_string t
  else layout.

(** [t.After(u)] and [t.Equal(u)] compare instants. *)
Definition After (t u : Time) : bool := (t >? u)%Z.
Definition Equal (t u : Time) : bool := (t =? u)%Z.

End time.

(* ================================================================= *)
(** ** The go-github records, restricted to the fields the program reads *)

Module github.

Open Scope string_scope.

Record User := { Login : option string }.

Record Repository := {
  repo_Name        : option string;
  repo_Owner       : option User;
  repo_Description : option string;
  repo_Language    : option string;
  repo_Private     : option bool;
  repo_Fork        : option bool;
  repo_UpdatedAt   : option time.Time
}.

Record PullRequest := {
  pr_Number    : option Z;
  pr_Title     : option string;
  pr_User      : option User;
  pr_CreatedAt : option time.Time;
  pr_Draft     : option bool;
  pr_Merged    : option bool
}.

Record PullRequestComment := {
  c_Body              : option string;
  c_User              : option User;
  c_CreatedAt         : option time.Time;
  c_UpdatedAt         : option time.Time;
  c_Path              : option string;
  c_Line              : option Z;
  c_StartLine         : option Z;
  c_OriginalLine      : option Z;
  c_OriginalStartLine : option Z;
  c_InReplyTo         : option Z
}.

Definition str (o : option string) : string :=
  match o with Some s => s | None => "" end.
Definition int (o : option Z) : Z :=
  match o with Some z => z | None => 0 end.
Definition flag (o : option bool) : bool :=
  match o with Some b => b | None => false end.

(** [u.GetLogin()] on a possibly nil [*User]. *)
Definition GetLogin (u : option User) : string :=
  match u with Some u' => str (Login u') | None => "" end.

End github.

(* ================================================================= *)
(** ** internal/ui/items.go *)

Module ui.

Import github.
Open Scope string_scope.

Record RepoItem := { Repo : Repository }.
Record PRItem := { PR : PullRequest }.
Record CommentItem := { Comment : PullRequestComment }.

Definition nonempty (s : string) : bool := negb (String.eqb s "").

Definition RepoItem_FilterValue (i : RepoItem) : string := str (repo_Name (Repo i)).

Definition RepoItem_Title (i : RepoItem) : string :=
  let name := str (repo_Name (Repo i)) in
  let name :=
    if nonempty (GetLogin (repo_Owner (Repo i)))
    then GetLogin (repo_Owner (Repo i)) ++ "/" ++ name
    else name in
  let indicators : list string := [] in
  let indicators :=
    if flag (repo_Private (Repo i)) then (indicators ++ ["🔒"])%list else indicators in
  let indicators :=
    if flag (repo_Fork (Repo i)) then (indicators ++ ["🍴"])%list else indicators in
  if (0 <? Z.of_nat (List.length indicators))%Z
  then name ++ " " ++ gofmt.Join indicators " "
  else name.

Definition RepoItem_Description (i : RepoItem) : string :=
  let desc := str (repo_Description (Repo i)) in
  let desc := if String.eqb desc "" then "No description" else desc in
  let lang := str (repo_Language (Repo i)) in
  let updated :=
    match repo_UpdatedAt (Repo i) with
    | Some t => time.Format t "2006-01-02"
    | None => ""
    end in
  if nonempty lang && nonempty updated
  then desc ++ " • " ++ lang ++ " • Updated " ++ updated
  else if nonempty lang then desc ++ " • " ++ lang
  else if nonempty updated then desc ++ " • Updated " ++ updated
  else desc.

Definition PRItem_FilterValue (i : PRItem) : string := str (pr_Title (PR i)).

Definition PRItem_Title (i : PRItem) : string :=
  "#" ++ gofmt.itoa (int (pr_Number (PR i))) ++ " " ++ str (pr_Title (PR i)).

Definition PRItem_Description (i : PRItem) : string :=
  let author := GetLogin (pr_User (PR i)) in
  let created :=
    match pr_CreatedAt (PR i) with
    | Some t => time.Format t "2006-01-02"
    | None => ""
    end in
  let status : list string := [] in
  let status := if flag (pr_Draft (PR i)) then (status ++ ["DRAFT"])%list else status in
  let status := if flag (pr_Merged (PR i)) then (status ++ ["MERGED"])%list else status in
  let statusStr :=
    if (0 <? Z.of_nat (List.length status))%Z
    then "[" ++ gofmt.Join status ", " ++ "] "
    else "" in
  statusStr ++ "by " ++ author ++ " • Created " ++ created.

Definition CommentItem_FilterValue (i : CommentItem) : string :=
  str (c_Body (Comment i)).

Section Title.

(** [strings.TrimSpace] and the replacement of the compiled pattern
    [^\s*#\s*] by the empty string belong to Go's library. *)
Variable TrimSpace : string -> string.
Variable stripHeading : string -> string.

(** The loop over the lines of the body: the first line that is not
    blank after trimming gives the title. *)
Fixpoint first_title (lines : list string) : option string :=
  match lines with
  | [] => None
  | line :: rest =>
      let line := TrimSpace line in
      if nonempty line then
        let line := stripHeading line in
        Some (if (80 <? Z.of_nat (String.length line))%Z
              then String.substring 0 77 line ++ "..."
              else line)
      else first_title rest
  end.

Definition CommentItem_Title (i : CommentItem) : string :=
  let body := TrimSpace (str (c_Body (Comment i))) in
  let lines := gofmt.Split body "010"%char in
  match first_title lines with
  | Some t => t
  | None => "Empty comment"
  end.

End Title.

(** The author and time part of a comment's description (items.go
    145-158). *)
Definition CommentItem_timeInfo (i : CommentItem) : string :=
  let created :=
    match c_CreatedAt (Comment i) with
    | Some t => time.Format t "2006-01-02 15:04"
    | None => ""
    end in
  match c_UpdatedAt (Comment i), c_CreatedAt (Comment i) with
  | Some u, Some _ =>
      let updated := time.Format u "2006-01-02 15:04" in
      if negb (String.eqb updated created)
      then created ++ " (updated " ++ updated ++ ")"
      else created
  | _, _ => created
  end.

(** The file and line part (items.go 161-192). *)
Definition CommentItem_fileInfo (i : CommentItem) : string :=
  let fileInfo := "" in
  if nonempty (str (c_Path (Comment i))) then
    let fileInfo := " • " ++ str (c_Path (Comment i)) in
    let line := int (c_Line (Comment i)) in
    let startLine := int (c_StartLine (Comment i)) in
    let originalLine := int (c_OriginalLine (Comment i)) in
    let originalStartLine := int (c_OriginalStartLine (Comment i)) in
    let fileInfo :=
      if negb (line =? 0)%Z then
        if negb (startLine =? 0)%Z && negb (startLine =? line)%Z
        then fileInfo ++ " L" ++ gofmt.itoa startLine ++ "-" ++ gofmt.itoa line
        else fileInfo ++ " L" ++ gofmt.itoa line
      else fileInfo in
    let fileInfo :=
      if negb (originalLine =? 0)%Z && negb (originalLine =? line)%Z then
        if negb (originalStartLine =? 0)%Z && negb (originalStartLine =? originalLine)%Z
        then fileInfo ++ " (orig L" ++ gofmt.itoa originalStartLine ++ "-"
                      ++ gofmt.itoa originalLine ++ ")"
        else fileInfo ++ " (orig L" ++ gofmt.itoa originalLine ++ ")"
      else fileInfo in
    fileInfo
  else fileInfo.

Definition CommentItem_Description (i : CommentItem) : string :=
  let author := GetLogin (c_User (Comment i)) in
  "by " ++ author ++ " • " ++ CommentItem_timeInfo i ++ CommentItem_fileInfo i.

End ui.

(* ================================================================= *)
(** ** internal/prompt/generator.go: the line ranges of the template data *)

Module prompt.

Import github.
Open Scope string_scope.

Record CommentData := {
  Line              : Z;
  StartLine         : Z;
  OriginalLine      : Z;
  OriginalStartLine : Z;
  LineRange         : string;
  OriginalLineRange : string
}.

(** [buildTemplateData], the fields of [data.Comment] that carry line
    numbers (generator.go 217-220 and 244-263). *)
Definition buildTemplateData_Comment (comment : PullRequestComment) : CommentData :=
  let line := int (c_Line comment) in
  let startLine := int (c_StartLine comment) in
  let originalLine := int (c_OriginalLine comment) in
  let originalStartLine := int (c_OriginalStartLine comment) in
  let lineRange :=
    if negb (line =? 0)%Z then
      if negb (startLine =? 0)%Z && negb (startLine =? line)%Z
      then "L" ++ gofmt.itoa startLine ++ "-" ++ gofmt.itoa line
      else "L" ++ gofmt.itoa line
    else "" in
  let originalLineRange :=
    if negb (originalLine =? 0)%Z && negb (originalLine =? line)%Z then
      if negb (originalStartLine =? 0)%Z && negb (originalStartLine =? originalLine)%Z
      then "L" ++ gofmt.itoa originalStartLine ++ "-" ++ gofmt.itoa originalLine
      else "L" ++ gofmt.itoa originalLine
    else "" in
  {| Line := line; StartLine := startLine;
     OriginalLine := originalLine; OriginalStartLine := originalStartLine;
     LineRange := lineRange; OriginalLineRange := originalLineRange |}.

End prompt.

(* ================================================================= *)
(** ** Bubble Tea messages and commands *)

Module tea.

Import github.

Definition error := string.

(** A [tea.Msg] is an open interface; the cases are the message types
    the program inspects, and [OtherMsg] stands for every other one
    (mouse events, the widgets' private messages). *)
Inductive Msg :=
| WindowSizeMsg (Width Height : Z)
| KeyMsg (key : string)
| ReposMsg (Repos : list Repository) (Err : option error)
| PRsMsg (PRs : list PullRequest) (Err : option error)
| CommentsMsg (Comments : list PullRequestComment) (Err : option error)
| clearCopyStatusMsg
| OtherMsg (tag : nat).

(** A [tea.Cmd] is a closure run by the runtime; the cases name the
    closures the program builds, [WidgetCmd] those a widget returns. *)
#[warnings="-register-all"]
Inductive Cmd :=
| CmdNil
| Quit
| EnterAltScreen
| CmdFetchRepos
| CmdFetchPRs (repo : Repository)
| CmdFetchComments (repo : Repository) (pr : PullRequest)
| Tick (seconds : Z) (msg : Msg)
| Batch (cmds : list Cmd)
| WidgetCmd (tag : nat).

End tea.

(* ================================================================= *)
(** ** The API client: what the fetch commands do when the runtime runs them *)

Module ghclient.

Import github tea.
Open Scope string_scope.

(** [sort.Slice(x, less)], with [less] on elements. *)
Class Sorter := {
  sort_Slice : forall {A : Type}, (A -> A -> bool) -> list A -> list A
}.

(** The requirements [sort.Interface] puts on [Less]. *)
Record LessOrder {A : Type} (less : A -> A -> bool) : Prop := {
  less_irrefl : forall x, less x x = false;
  less_trans : forall x y z, less x y = true -> less y z = true -> less x z = true;
  less_negtrans : forall x y z, less x y = false -> less y z = false -> less x z = false
}.

(** What [sort.Slice] promises: the same elements, and no later element
    less than an earlier one.  Nothing is promised about ties. *)
Class SorterLaws (S : Sorter) : Prop := {
  sort_Slice_perm :
    forall (A : Type) (less : A -> A -> bool) (l : list A),
      Permutation l (sort_Slice less l);
  sort_Slice_sorted :
    forall (A : Type) (less : A -> A -> bool) (l : list A),
      LessOrder less ->
      StronglySorted (fun x y => less y x = false) (sort_Slice less l)
}.

Record Organization := { org_Login : option string }.

(** The remote service, one answer per request. *)
Class Service := {
  Repositories_List : error + list Repository;
  Organizations_List : error + list Organization;
  Repositories_ListByOrg : string -> error + list Repository;
  PullRequests_List : string -> string -> error + list PullRequest;
  PullRequests_ListComments : string -> string -> Z -> error + list PullRequestComment
}.

Section Client.

Context {S : Sorter} {V : Service}.

Fixpoint appendOrgRepos (allRepos : list Repository) (orgs : list Organization)
  : list Repository :=
  match orgs with
  | [] => allRepos
  | org :: rest =>
      match Repositories_ListByOrg (str (org_Login org)) with
      | inr orgRepos => appendOrgRepos (allRepos ++ orgRepos)%list rest
      | inl _ => appendOrgRepos allRepos rest
      end
  end.

Definition FetchRepos : Msg :=
  match Repositories_List with
  | inl err => ReposMsg [] (Some err)
  | inr userRepos =>
      let allRepos := userRepos in
      let allRepos :=
        match Organizations_List with
        | inr orgs => appendOrgRepos allRepos orgs
        | inl _ => allRepos
        end in
      ReposMsg allRepos None
  end.

Definition prLess (a b : PullRequest) : bool :=
  (int (pr_Number a) >? int (pr_Number b))%Z.

Definition FetchPRs (repo : option Repository) : Msg :=
  match repo with
  | None => PRsMsg [] (Some "no repository provided")
  | Some r =>
      match PullRequests_List (GetLogin (repo_Owner r)) (str (repo_Name r)) with
      | inl err => PRsMsg [] (Some err)
      | inr prs => PRsMsg (sort_Slice prLess prs) None
      end
  end.

Definition commentLess (a b : PullRequestComment) : bool :=
  match c_UpdatedAt a, c_UpdatedAt b with
  | None, None => false
  | None, _ => false
  | _, None => true
  | Some ta, Some tb => time.After ta tb
  end.

Definition FetchComments (repo : option Repository) (pr : option PullRequest) : Msg :=
  match repo, pr with
  | Some r, Some p =>
      match PullRequests_ListComments
              (GetLogin (repo_Owner r)) (str (repo_Name r)) (int (pr_Number p)) with
      | inl err => CommentsMsg [] (Some err)
      | inr comments =>
          let unresolvedComments := comments in
          CommentsMsg (sort_Slice commentLess unresolvedComments) None
      end
  | _, _ => CommentsMsg [] (Some "no repository or PR provided")
  end.

End Client.

(** An executable sorter: insertion sort, which keeps ties in input
    order, and its mirror image, which reverses them.  Both meet
    [SorterLaws]. *)
Fixpoint insert {A : Type} (less : A -> A -> bool) (x : A) (l : list A) : list A :=
  match l with
  | [] => [x]
  | y :: rest => if less y x then y :: insert less x rest else x :: l
  end.

Fixpoint isort {A : Type} (less : A -> A -> bool) (l : list A) : list A :=
  match l with
  | [] => []
  | x :: rest => insert less x (isort less rest)
  end.

Definition insertion_sorter : Sorter := {| sort_Slice := @isort |}.

Definition mirrored_sorter : Sorter :=
  {| sort_Slice := fun A less l => isort less (rev l) |}.

End ghclient.

(* ================================================================= *)
(** ** internal/app/app.go *)

Module app.

Import github tea ui.
Open Scope string_scope.

(** Go's [int] on the 64-bit targets of the Makefile. *)
Definition min_int : Z := - 2 ^ 63.
Definition max_int : Z := 2 ^ 63 - 1.
Definition wrap (z : Z) : Z := (z + 2 ^ 63) mod 2 ^ 64 - 2 ^ 63.
Definition isub (a b : Z) : Z := wrap (a - b).

Inductive State := StateRepos | StatePRs | StateComments | StateCommentDetail.

Definition State_eqb (s t : State) : bool :=
  match s, t with
  | StateRepos, StateRepos | StatePRs, StatePRs
  | StateComments, StateComments | StateCommentDetail, StateCommentDetail => true
  | _, _ => false
  end.

(** The value of the [iota] constant: the depth of the level. *)
Definition level (s : State) : Z :=
  match s with
  | StateRepos => 0
  | StatePRs => 1
  | StateComments => 2
  | StateCommentDetail => 3
  end.

(** [viewport.Model] of bubbles: the exported fields the program
    assigns, the scroll offset and the lines of the content. *)
Record viewport_Model := {
  Width : Z;
  Height : Z;
  YOffset : Z;
  lines : list string
}.

Definition set_Width (w : Z) (v : viewport_Model) : viewport_Model :=
  {| Width := w; Height := Height v; YOffset := YOffset v; lines := lines v |}.
Definition set_Height (h : Z) (v : viewport_Model) : viewport_Model :=
  {| Width := Width v; Height := h; YOffset := YOffset v; lines := lines v |}.

(** A lipgloss style, as the chain of calls that builds it. *)
Inductive StyleAttr := Align_Center | Foreground (color : string) | Bold.
Definition Style := list StyleAttr.

(** The libraries and collaborators of the application.  A list widget
    is typed by its items: [repoList] only ever receives [RepoItem]s, so
    the type assertion on its selected item cannot fail. *)
Class Env := {
  (* bubbles/list *)
  list_Model : Type -> Type;
  list_New : forall {A : Type}, string -> list_Model A;
  list_SetSize : forall {A : Type}, Z -> Z -> list_Model A -> list_Model A;
  list_SetItems : forall {A : Type}, list A -> list_Model A -> list_Model A;
  list_Items : forall {A : Type}, list_Model A -> list A;
  list_SelectedItem : forall {A : Type}, list_Model A -> option A;
  list_SettingFilter : forall {A : Type}, list_Model A -> bool;
  list_Update : forall {A : Type}, list_Model A -> Msg -> list_Model A * Cmd;
  list_View : forall {A : Type}, list_Model A -> string;
  (* bubbles/viewport *)
  viewport_New : Z -> Z -> viewport_Model;
  viewport_SetContent : string -> viewport_Model -> viewport_Model;
  viewport_LineUp : Z -> viewport_Model -> viewport_Model;
  viewport_LineDown : Z -> viewport_Model -> viewport_Model;
  viewport_HalfViewUp : viewport_Model -> viewport_Model;
  viewport_HalfViewDown : viewport_Model -> viewport_Model;
  viewport_GotoTop : viewport_Model -> viewport_Model;
  viewport_GotoBottom : viewport_Model -> viewport_Model;
  viewport_Update : viewport_Model -> Msg -> viewport_Model * Cmd;
  viewport_View : viewport_Model -> string;
  (* lipgloss *)
  Render : Style -> string -> string;
  JoinVertical : list string -> string;
  (* prompt generator and clipboard *)
  GenerateSimplePrompt : Repository -> PullRequest -> PullRequestComment -> string;
  GenerateFullPrompt : Repository -> PullRequest -> PullRequestComment -> string;
  clipboard_Copy : string -> option error;
  (* the text of [buildCommentDetail] for a non-nil comment, from the
     current pull request, the comment and the terminal width, and of
     [buildSelectedPRInfo] for a non-nil pull request *)
  commentDetail : option PullRequest -> PullRequestComment -> Z -> string;
  selectedPRInfo : PullRequest -> string
}.

(** The laws of the widgets that the properties below rest on: the
    items of a list are those last given to [SetItems], [Update] leaves
    them alone, and the viewport's [Update] never resizes it. *)
Class EnvLaws (E : Env) : Prop := {
  list_Items_SetItems :
    forall (A : Type) (l : list A) (m : list_Model A),
      list_Items (list_SetItems l m) = l;
  list_Items_Update :
    forall (A : Type) (m : list_Model A) (msg : Msg),
      list_Items (fst (list_Update m msg)) = list_Items m;
  viewport_Update_size :
    forall (v : viewport_Model) (msg : Msg),
      Width (fst (viewport_Update v msg)) = Width v /\
      Height (fst (viewport_Update v msg)) = Height v
}.

Section Application.

Context {E : Env}.

Record App := {
  state           : State;
  repoList        : list_Model RepoItem;
  prList          : list_Model PRItem;
  commentList     : list_Model CommentItem;
  commentViewport : viewport_Model;
  currentRepo     : option Repository;
  currentPR       : option PullRequest;
  currentComment  : option PullRequestComment;
  loading         : bool;
  err             : option error;
  width           : Z;
  height          : Z;
  copyStatus      : string;
  showReplies     : bool;
  useSimplePrompt : bool
}.

(** Assignments to the fields of [*App]. *)
Definition set_state (x : State) (a : App) : App :=
  Build_App x (repoList a) (prList a) (commentList a) (commentViewport a)
    (currentRepo a) (currentPR a) (currentComment a) (loading a) (err a)
    (width a) (height a) (copyStatus a) (showReplies a) (useSimplePrompt a).
Definition set_repoList (x : list_Model RepoItem) (a : App) : App :=
  Build_App (state a) x (prList a) (commentList a) (commentViewport a)
    (currentRepo a) (currentPR a) (currentComment a) (loading a) (err a)
    (width a) (height a) (copyStatus a) (showReplies a) (useSimplePrompt a).
Definition set_prList (x : list_Model PRItem) (a : App) : App :=
  Build_App (state a) (repoList a) x (commentList a) (commentViewport a)
    (currentRepo a) (currentPR a) (currentComment a) (loading a) (err a)
    (width a) (height a) (copyStatus a) (showReplies a) (useSimplePrompt a).
Definition set_commentList (x : list_Model CommentItem) (a : App) : App :=
  Build_App (state a) (repoList a) (prList a) x (commentViewport a)
    (currentRepo a) (currentPR a) (currentComment a) (loading a) (err a)
    (width a) (height a) (copyStatus a) (showReplies a) (useSimplePrompt a).
Definition set_commentViewport (x : viewport_Model) (a : App) : App :=
  Build_App (state a) (repoList a) (prList a) (commentList a) x
    (currentRepo a) (currentPR a) (currentComment a) (loading a) (err a)
    (width a) (height a) (copyStatus a) (showReplies a) (useSimplePrompt a).
Definition set_currentRepo (x : option Repository) (a : App) : App :=
  Build_App (state a) (repoList a) (prList a) (commentList a) (commentViewport a)
    x (currentPR a) (currentComment a) (loading a) (err a)
    (width a) (height a) (copyStatus a) (showReplies a) (useSimplePrompt a).
Definition set_currentPR (x : option PullRequest) (a : App) : App :=
  Build_App (state a) (repoList a) (prList a) (commentList a) (commentViewport a)
    (currentRepo a) x (currentComment a) (loading a) (err a)
    (width a) (height a) (copyStatus a) (showReplies a) (useSimplePrompt a).
Definition set_currentComment (x : option PullRequestComment) (a : App) : App :=
  Build_App (state a) (repoList a) (prList a) (commentList a) (commentViewport a)
    (currentRepo a) (currentPR a) x (loading a) (err a)
    (width a) (height a) (copyStatus a) (showReplies a) (useSimplePrompt a).
Definition set_loading (x : bool) (a : App) : App :=
  Build_App (state a) (repoList a) (prList a) (commentList a) (commentViewport a)
    (currentRepo a) (currentPR a) (currentComment a) x (err a)
    (width a) (height a) (copyStatus a) (showReplies a) (useSimplePrompt a).
Definition set_err (x : option error) (a : App) : App :=
  Build_App (state a) (repoList a) (prList a) (commentList a) (commentViewport a)
    (currentRepo a) (currentPR a) (currentComment a) (loading a) x
    (width a) (height a) (copyStatus a) (showReplies a) (useSimplePrompt a).
Definition set_width (x : Z) (a : App) : App :=
  Build_App (state a) (repoList a) (prList a) (commentList a) (commentViewport a)
    (currentRepo a) (currentPR a) (currentComment a) (loading a) (err a)
    x (height a) (copyStatus a) (showReplies a) (useSimplePrompt a).
Definition set_height (x : Z) (a : App) : App :=
  Build_App (state a) (repoList a) (prList a) (commentList a) (commentViewport a)
    (currentRepo a) (currentPR a) (currentComment a) (loading a) (err a)
    (width a) x (copyStatus a) (showReplies a) (useSimplePrompt a).
Definition set_copyStatus (x : string) (a : App) : App :=
  Build_App (state a) (repoList a) (prList a) (commentList a) (commentViewport a)
    (currentRepo a) (currentPR a) (currentComment a) (loading a) (err a)
    (width a) (height a) x (showReplies a) (useSimplePrompt a).
Definition set_showReplies (x : bool) (a : App) : App :=
  Build_App (state a) (repoList a) (prList a) (commentList a) (commentViewport a)
    (currentRepo a) (currentPR a) (currentComment a) (loading a) (err a)
    (width a) (height a) (copyStatus a) x (useSimplePrompt a).
Definition set_useSimplePrompt (x : bool) (a : App) : App :=
  Build_App (state a) (repoList a) (prList a) (commentList a) (commentViewport a)
    (currentRepo a) (currentPR a) (currentComment a) (loading a) (err a)
    (width a) (height a) (copyStatus a) (showReplies a) x.

(** [New]: the client and the prompt generator are fixed collaborators
    of [E] and carry no state. *)
Definition New : App :=
  {| state := StateRepos;
     repoList := list_New "GitHub Repositories";
     prList := list_New "Pull Requests";
     commentList := list_New "PR Comments";
     commentViewport := viewport_New 0 0;
     currentRepo := None;
     currentPR := None;
     currentComment := None;
     loading := true;
     err := None;
     width := 0;
     height := 0;
     copyStatus := "";
     showReplies := false;
     useSimplePrompt := false |}.

Definition fetchRepos (a : App) : Cmd := CmdFetchRepos.

Definition fetchPRs (a : App) : Cmd :=
  match currentRepo a with
  | None => CmdNil
  | Some repo => CmdFetchPRs repo
  end.

Definition fetchComments (a : App) : Cmd :=
  match currentRepo a, currentPR a with
  | Some repo, Some pr => CmdFetchComments repo pr
  | _, _ => CmdNil
  end.

Definition Init (a : App) : Cmd := Batch [fetchRepos a; EnterAltScreen].

Definition buildPRInfo (a : App) : string :=
  match currentPR a with
  | None => ""
  | Some pr => selectedPRInfo pr
  end.

Definition buildCommentDetail (a : App) : string :=
  match currentComment a with
  | None => ""
  | Some c => commentDetail (currentPR a) c (width a)
  end.

Definition handleEnter (a : App) : App * Cmd :=
  match state a with
  | StateRepos =>
      match list_SelectedItem (repoList a) with
      | Some item =>
          let a := set_currentRepo (Some (Repo item)) a in
          let a := set_state StatePRs a in
          let a := set_loading true a in
          (a, fetchPRs a)
      | None => (a, CmdNil)
      end
  | StatePRs =>
      match list_SelectedItem (prList a) with
      | Some item =>
          let a := set_currentPR (Some (PR item)) a in
          let a := set_state StateComments a in
          let a := set_loading true a in
          (a, fetchComments a)
      | None => (a, CmdNil)
      end
  | StateComments =>
      match list_SelectedItem (commentList a) with
      | Some item =>
          let a := set_currentComment (Some (Comment item)) a in
          let a := set_state StateCommentDetail a in
          let fixedLines := 6%Z in
          let viewportHeight := Z.max (isub (height a) fixedLines) 1 in
          let a := set_commentViewport
                     (set_Width (isub (width a) 4) (commentViewport a)) a in
          let a := set_commentViewport
                     (set_Height viewportHeight (commentViewport a)) a in
          let content := buildCommentDetail a in
          let a := set_commentViewport
                     (viewport_SetContent content (commentViewport a)) a in
          (a, CmdNil)
      | None => (a, CmdNil)
      end
  | StateCommentDetail => (a, CmdNil)
  end.

Definition handleBack (a : App) : App * Cmd :=
  match state a with
  | StatePRs =>
      let a := set_state StateRepos a in
      let a := set_currentRepo None a in
      (a, CmdNil)
  | StateComments =>
      let a := set_state StatePRs a in
      let a := set_currentPR None a in
      (a, CmdNil)
  | StateCommentDetail =>
      let a := set_state StateComments a in
      let a := set_currentComment None a in
      (a, CmdNil)
  | StateRepos => (a, CmdNil)
  end.

Definition handleCopyPrompt (a : App) : App * Cmd :=
  match currentRepo a, currentPR a, currentComment a with
  | Some repo, Some pr, Some comment =>
      let '(promptText, promptType) :=
        if useSimplePrompt a
        then (GenerateSimplePrompt repo pr comment, "Simple")
        else (GenerateFullPrompt repo pr comment, "Full") in
      let a :=
        match clipboard_Copy promptText with
        | Some e => set_copyStatus ("Copy failed: " ++ e) a
        | None => set_copyStatus ("‚úÖ " ++ promptType ++ " prompt copied to clipboard!") a
        end in
      (a, Tick 3 clearCopyStatusMsg)
  | _, _, _ =>
      (set_copyStatus "Error: Missing context for prompt generation" a, CmdNil)
  end.

Definition handleTogglePromptMode (a : App) : App * Cmd :=
  let a := set_useSimplePrompt (negb (useSimplePrompt a)) a in
  let mode := if useSimplePrompt a then "Simple" else "Full" in
  let a := set_copyStatus ("üîÑ Switched to " ++ mode ++ " prompt mode") a in
  (a, Tick 2 clearCopyStatusMsg).

Definition handleToggleReplies (a : App) : App * Cmd :=
  let a := set_showReplies (negb (showReplies a)) a in
  let a := set_loading true a in
  (a, fetchComments a).

(** The tail of [Update] (app.go 241-254): the message goes to the
    widget of the current level. *)
Definition updateCurrent (a : App) (msg : Msg) : App * Cmd :=
  match state a with
  | StateRepos =>
      let '(l, cmd) := list_Update (repoList a) msg in (set_repoList l a, cmd)
  | StatePRs =>
      let '(l, cmd) := list_Update (prList a) msg in (set_prList l a, cmd)
  | StateComments =>
      let '(l, cmd) := list_Update (commentList a) msg in (set_commentList l a, cmd)
  | StateCommentDetail =>
      let '(v, cmd) := viewport_Update (commentViewport a) msg in
      (set_commentViewport v a, cmd)
  end.

Definition key_in (k : string) (names : list string) : bool :=
  existsb (String.eqb k) names.

Definition inDetail (a : App) : bool := State_eqb (state a) StateCommentDetail.

Definition Update (a : App) (msg : Msg) : App * Cmd :=
  match msg with
  | WindowSizeMsg w h =>
      let a := set_width w a in
      let a := set_height h a in
      let a := set_repoList (list_SetSize (isub w 4) (isub h 4) (repoList a)) a in
      let a := set_prList (list_SetSize (isub w 4) (isub h 4) (prList a)) a in
      let a := set_commentList (list_SetSize (isub w 4) (isub h 7) (commentList a)) a in
      let availableHeight := isub h 5 in
      let availableHeight :=
        if nonempty (copyStatus a) then isub availableHeight 2 else availableHeight in
      let a := set_commentViewport (set_Width (isub w 4) (commentViewport a)) a in
      let a := set_commentViewport (set_Height availableHeight (commentViewport a)) a in
      updateCurrent a msg
  | KeyMsg k =>
      if key_in k ["ctrl+c"; "q"] then (a, Quit)
      else if key_in k ["esc"] then
        match state a with
        | StateRepos =>
            if list_SettingFilter (repoList a) then
              let '(l, cmd) := list_Update (repoList a) msg in (set_repoList l a, cmd)
            else handleBack a
        | StatePRs =>
            if list_SettingFilter (prList a) then
              let '(l, cmd) := list_Update (prList a) msg in (set_prList l a, cmd)
            else handleBack a
        | StateComments =>
            if list_SettingFilter (commentList a) then
              let '(l, cmd) := list_Update (commentList a) msg in
              (set_commentList l a, cmd)
            else handleBack a
        | StateCommentDetail => handleBack a
        end
      else if key_in k ["enter"] then handleEnter a
      else if key_in k ["c"] then
        if inDetail a then handleCopyPrompt a else updateCurrent a msg
      else if key_in k ["t"] then
        if inDetail a then handleTogglePromptMode a else updateCurrent a msg
      else if key_in k ["r"] then
        if State_eqb (state a) StateComments then handleToggleReplies a
        else updateCurrent a msg
      else if key_in k ["up"; "k"] then
        if inDetail a
        then (set_commentViewport (viewport_LineUp 1 (commentViewport a)) a, CmdNil)
        else updateCurrent a msg
      else if key_in k ["down"; "j"] then
        if inDetail a
        then (set_commentViewport (viewport_LineDown 1 (commentViewport a)) a, CmdNil)
        else updateCurrent a msg
      else if key_in k ["pgup"; "h"] then
        if inDetail a
        then (set_commentViewport (viewport_HalfViewUp (commentViewport a)) a, CmdNil)
        else updateCurrent a msg
      else if key_in k ["pgdown"; "l"] then
        if inDetail a
        then (set_commentViewport (viewport_HalfViewDown (commentViewport a)) a, CmdNil)
        else updateCurrent a msg
      else if key_in k ["home"; "g"] then
        if inDetail a
        then (set_commentViewport (viewport_GotoTop (commentViewport a)) a, CmdNil)
        else updateCurrent a msg
      else if key_in k ["end"; "G"] then
        if inDetail a
        then (set_commentViewport (viewport_GotoBottom (commentViewport a)) a, CmdNil)
        else updateCurrent a msg
      else updateCurrent a msg
  | ReposMsg repos e =>
      let a := set_loading false a in
      match e with
      | Some e' => (set_err (Some e') a, CmdNil)
      | None =>
          let items := map (fun repo => {| Repo := repo |}) repos in
          let a := set_repoList (list_SetItems items (repoList a)) a in
          updateCurrent a msg
      end
  | PRsMsg prs e =>
      let a := set_loading false a in
      match e with
      | Some e' => (set_err (Some e') a, CmdNil)
      | None =>
          let items := map (fun pr => {| PR := pr |}) prs in
          let a := set_prList (list_SetItems items (prList a)) a in
          updateCurrent a msg
      end
  | CommentsMsg comments e =>
      let a := set_loading false a in
      match e with
      | Some e' => (set_err (Some e') a, CmdNil)
      | None =>
          let filteredComments :=
            filter (fun comment =>
                      showReplies a || (int (c_InReplyTo comment) =? 0)%Z) comments in
          let items := map (fun comment => {| Comment := comment |}) filteredComments in
          let a := set_commentList (list_SetItems items (commentList a)) a in
          updateCurrent a msg
      end
  | clearCopyStatusMsg =>
      let a := set_copyStatus "" a in
      updateCurrent a msg
  | OtherMsg _ => updateCurrent a msg
  end.

(** [a.currentRepo.GetName()] and [a.currentPR.GetNumber()] on
    possibly nil receivers. *)
Definition repoName (a : App) : string :=
  match currentRepo a with Some r => str (repo_Name r) | None => "" end.
Definition prNumber (a : App) : Z :=
  match currentPR a with Some p => int (pr_Number p) | None => 0%Z end.

Definition statusStyle : Style := [Foreground "2"; Bold].

(** [View] has a pointer receiver and assigns the viewport height, so
    it returns the application next to the frame. *)
Definition View (a : App) : App * string :=
  if loading a then (a, Render [Align_Center] "Loading...")
  else
    match err a with
    | Some e => (a, Render [Foreground "9"] ("Error: " ++ e))
    | None =>
        let '(content, breadcrumb) :=
          match state a with
          | StateRepos => (list_View (repoList a), "Repositories")
          | StatePRs =>
              (list_View (prList a),
               "Repositories > " ++ repoName a ++ " > Pull Requests")
          | StateComments =>
              (JoinVertical [buildPRInfo a; list_View (commentList a)],
               "Repositories > " ++ repoName a ++ " > Pull Requests > #"
                 ++ gofmt.itoa (prNumber a) ++ " > Comments")
          | StateCommentDetail =>
              (viewport_View (commentViewport a),
               "Repositories > " ++ repoName a ++ " > Pull Requests > #"
                 ++ gofmt.itoa (prNumber a) ++ " > Comments > Comment")
          end in
        let helpText :=
          if inDetail a then
            let promptMode := if useSimplePrompt a then "simple" else "full" in
            "c: copy prompt (" ++ promptMode
              ++ ") ‚Ä¢ t: toggle prompt mode ‚Ä¢ ‚Üë/‚Üì j/k: scroll ‚Ä¢ Esc: back ‚Ä¢ q: quit"
          else if State_eqb (state a) StateComments then
            let repliesStatus := if showReplies a then "hide" else "show" in
            "Enter: select ‚Ä¢ r: " ++ repliesStatus ++ " replies ‚Ä¢ Esc: back ‚Ä¢ q: quit"
          else "Enter: select ‚Ä¢ Esc: back ‚Ä¢ q: quit" in
        let help := Render [Foreground "8"] helpText in
        if inDetail a then
          let fixedLines := 6%Z in
          let viewportHeight := Z.max (isub (height a) fixedLines) 1 in
          let a :=
            if negb (Height (commentViewport a) =? viewportHeight)%Z
            then set_commentViewport (set_Height viewportHeight (commentViewport a)) a
            else a in
          let header := JoinVertical [Render [Bold] breadcrumb; ""] in
          let statusSection := Render statusStyle (copyStatus a) in
          let layoutElements := [header; content] in
          let layoutElements :=
            if nonempty statusSection
            then (layoutElements ++ [""; statusSection])%list
            else (layoutElements ++ [""])%list in
          let layoutElements := (layoutElements ++ [""; help])%list in
          (a, JoinVertical layoutElements)
        else
          let elements := [Render [Bold] breadcrumb; ""] in
          let elements :=
            if nonempty (copyStatus a)
            then (elements ++ [Render statusStyle (copyStatus a); ""])%list
            else elements in
          let elements := (elements ++ [content; ""; help])%list in
          (a, JoinVertical elements)
    end.

(** One turn of the Bubble Tea loop: the event is handled, then the
    frame is rendered. *)
Definition turn (a : App) (msg : Msg) : App * Cmd * string :=
  let '(a1, cmd) := Update a msg in
  let '(a2, frame) := View a1 in
  (a2, cmd, frame).

Definition after (a : App) (msg : Msg) : App := fst (fst (turn a msg)).

(** The application after a sequence of events. *)
Definition run (a : App) (msgs : list Msg) : App := fold_left after msgs a.

End Application.

Arguments App E : clear implicits.

End app.

(* ================================================================= *)
(** ** An executable environment

    A small list widget (items, cursor, a flag for the filter prompt), a
    viewport that scrolls by lines, styles that leave the text alone and
    a clipboard that accepts everything.  It gives the states, traces and
    frames of the examples below something to run on. *)

Module sim.

Import github tea ui app.
Open Scope string_scope.

Record SimpleList (A : Type) := {
  items : list A;
  cursor : nat;
  filtering : bool;
  title : string;
  size : Z * Z
}.
Arguments items {A}.
Arguments cursor {A}.
Arguments filtering {A}.
Arguments title {A}.
Arguments size {A}.

Definition sl_New {A : Type} (t : string) : SimpleList A :=
  {| items := []; cursor := 0; filtering := false; title := t; size := (0, 0) |}.

Definition sl_SetSize {A : Type} (w h : Z) (m : SimpleList A) : SimpleList A :=
  {| items := items m; cursor := cursor m; filtering := filtering m;
     title := title m; size := (w, h) |}.

Definition sl_SetItems {A : Type} (l : list A) (m : SimpleList A) : SimpleList A :=
  {| items := l; cursor := cursor m; filtering := filtering m;
     title := title m; size := size m |}.

Definition sl_move {A : Type} (c : nat) (m : SimpleList A) : SimpleList A :=
  {| items := items m; cursor := c; filtering := filtering m;
     title := title m; size := size m |}.

Definition sl_prompt {A : Type} (f : bool) (m : SimpleList A) : SimpleList A :=
  {| items := items m; cursor := cursor m; filtering := f;
     title := title m; size := size m |}.

Definition sl_Update {A : Type} (m : SimpleList A) (msg : Msg) : SimpleList A * Cmd :=
  match msg with
  | KeyMsg k =>
      if filtering m then
        if key_in k ["esc"; "enter"] then (sl_prompt false m, CmdNil) else (m, CmdNil)
      else if key_in k ["/"] then (sl_prompt true m, CmdNil)
      else if key_in k ["down"; "j"] then
        (if (S (cursor m) <? List.length (items m))%nat
         then sl_move (S (cursor m)) m else m, CmdNil)
      else if key_in k ["up"; "k"] then (sl_move (Nat.pred (cursor m)) m, CmdNil)
      else if key_in k ["q"; "esc"] then (m, Quit)
      else (m, CmdNil)
  | _ => (m, CmdNil)
  end.

Definition vp_scroll (y : Z) (v : viewport_Model) : viewport_Model :=
  let bottom := Z.max 0 (Z.of_nat (List.length (lines v)) - Height v) in
  {| Width := Width v; Height := Height v;
     YOffset := Z.max 0 (Z.min y bottom); lines := lines v |}.

Definition vp_SetContent (s : string) (v : viewport_Model) : viewport_Model :=
  vp_scroll (YOffset v)
    {| Width := Width v; Height := Height v; YOffset := YOffset v;
       lines := gofmt.Split s "010"%char |}.

Definition vp_View (v : viewport_Model) : string :=
  gofmt.Join (firstn (Z.to_nat (Height v)) (skipn (Z.to_nat (YOffset v)) (lines v)))
    (String "010"%char "").

Definition simple_env : Env := {|
  list_Model := SimpleList;
  list_New := @sl_New;
  list_SetSize := @sl_SetSize;
  list_SetItems := @sl_SetItems;
  list_Items := @items;
  list_SelectedItem := fun A m => nth_error (items m) (cursor m);
  list_SettingFilter := @filtering;
  list_Update := @sl_Update;
  list_View := @title;
  viewport_New := fun w h => {| Width := w; Height := h; YOffset := 0; lines := [] |};
  viewport_SetContent := vp_SetContent;
  viewport_LineUp := fun n v => vp_scroll (YOffset v - n) v;
  viewport_LineDown := fun n v => vp_scroll (YOffset v + n) v;
  viewport_HalfViewUp := fun v => vp_scroll (YOffset v - Height v / 2) v;
  viewport_HalfViewDown := fun v => vp_scroll (YOffset v + Height v / 2) v;
  viewport_GotoTop := vp_scroll 0;
  viewport_GotoBottom := fun v => vp_scroll (Z.of_nat (List.length (lines v))) v;
  viewport_Update := fun v _ => (v, CmdNil);
  viewport_View := vp_View;
  Render := fun _ s => s;
  JoinVertical := fun l => gofmt.Join l (String "010"%char "");
  GenerateSimplePrompt := fun _ _ c => str (c_Body c);
  GenerateFullPrompt := fun _ pr c => PRItem_Title {| PR := pr |} ++ ": " ++ str (c_Body c);
  clipboard_Copy := fun _ => None;
  commentDetail := fun _ c _ => str (c_Body c);
  selectedPRInfo := fun pr => PRItem_Title {| PR := pr |}
|}.

(** Sample records. *)
Definition octo : User := {| Login := Some "octo" |}.

Definition bare_repo : Repository :=
  {| repo_Name := Some "nitpick"; repo_Owner := Some octo;
     repo_Description := None; repo_Language := None;
     repo_Private := None; repo_Fork := None;
     repo_UpdatedAt := Some 1705312800000000000%Z |}.

Definition pull (n : Z) : PullRequest :=
  {| pr_Number := Some n; pr_Title := Some "Tidy the parser"; pr_User := Some octo;
     pr_CreatedAt := Some 1705312800000000000%Z;
     pr_Draft := None; pr_Merged := None |}.

(** A comment on [path] with the four line fields ([0] for an absent
    one), updated at [upd] and answering [reply]. *)
Definition opt0 (z : Z) : option Z := if (z =? 0)%Z then None else Some z.

Definition note (upd : option time.Time) (reply : Z)
    (line startLine originalLine originalStartLine : Z) : PullRequestComment :=
  {| c_Body := Some "Please rename this"; c_User := Some octo;
     c_CreatedAt := Some 1705312800000000000%Z; c_UpdatedAt := upd;
     c_Path := Some "main.go";
     c_Line := opt0 line; c_StartLine := opt0 startLine;
     c_OriginalLine := opt0 originalLine;
     c_OriginalStartLine := opt0 originalStartLine;
     c_InReplyTo := opt0 reply |}.

Definition top_level (id : Z) : PullRequestComment :=
  note (Some (1705312800000000000 + id)%Z) 0 id 0 0 0.
Definition reply_to (parent id : Z) : PullRequestComment :=
  note (Some (1705312800000000000 + id)%Z) parent id 0 0 0.

(** Five comments, two of them replies. *)
Definition five_comments : list PullRequestComment :=
  [top_level 1; reply_to 1 2; top_level 3; reply_to 3 4; top_level 5].

(** The application at each level, reached from [New] by events. *)
Definition to_repos : list Msg := [WindowSizeMsg 80 24; ReposMsg [bare_repo] None].
Definition to_prs : list Msg :=
  (to_repos ++ [KeyMsg "enter"; PRsMsg [pull 7] None])%list.
Definition to_comments : list Msg :=
  (to_prs ++ [KeyMsg "enter"; CommentsMsg five_comments None])%list.
Definition to_detail : list Msg := (to_comments ++ [KeyMsg "enter"])%list.

Definition at_repos : App simple_env := run New to_repos.
Definition at_prs : App simple_env := run New to_prs.
Definition at_comments : App simple_env := run New to_comments.
Definition at_detail : App simple_env := run New to_detail.

(** The same, with the filter prompt of the current list open. *)
Definition prompting (a : App simple_env) : App simple_env := after a (KeyMsg "/").

(** A fetch of pull requests that fails, after which the user backs
    out, enters the repository again and the fetch succeeds. *)
Definition failed_then_refetched : list Msg :=
  (to_repos ++ [KeyMsg "enter"; PRsMsg [] (Some "timeout");
                KeyMsg "esc"; KeyMsg "enter"; PRsMsg [pull 7] None])%list.

(** A service that answers every request, out of order. *)
Definition undated : PullRequestComment := note None 0 7 0 0 0.

Definition sample_service : ghclient.Service := {|
  ghclient.Repositories_List := inr [bare_repo];
  ghclient.Organizations_List := inl "forbidden";
  ghclient.Repositories_ListByOrg := fun _ => inr [];
  ghclient.PullRequests_List := fun _ _ => inr [pull 3; pull 7; pull 5];
  ghclient.PullRequests_ListComments :=
    fun _ _ _ => inr [undated; top_level 1; top_level 5; reply_to 1 2]
|}.

End sim.

(* ================================================================= *)
(** ** Vocabulary of the statements *)

Module spec.

Import github ui app.
Open Scope string_scope.

(** The body text of a repository or its placeholder. *)
Definition body_or_placeholder (i : RepoItem) : string :=
  if nonempty (str (repo_Description (Repo i)))
  then str (repo_Description (Repo i)) else "No description".

(** [L<start>-<end>] for a range whose start is present and differs from
    its end, [L<end>] otherwise. *)
Definition range_text (start end_ : Z) : string :=
  if negb (start =? 0)%Z && negb (start =? end_)%Z
  then "L" ++ gofmt.itoa start ++ "-" ++ gofmt.itoa end_
  else "L" ++ gofmt.itoa end_.

(** The description of a comment up to and including its file path. *)
Definition described_path (i : CommentItem) : string :=
  "by " ++ GetLogin (c_User (Comment i)) ++ " • " ++ CommentItem_timeInfo i
    ++ " • " ++ str (c_Path (Comment i)).

(** The original-line suffix: present when the original line is set and
    differs from the current line. *)
Definition orig_suffix (c : PullRequestComment) : string :=
  if negb (int (c_OriginalLine c) =? 0)%Z
     && negb (int (c_OriginalLine c) =? int (c_Line c))%Z
  then " (orig " ++ range_text (int (c_OriginalStartLine c)) (int (c_OriginalLine c)) ++ ")"
  else "".

(** The selection and the level, which only [Enter] and [Back] touch. *)
Definition nav {E : Env} (a : App E) :=
  (state a, currentRepo a, currentPR a, currentComment a).

(** The flags the frame depends on. *)
Definition status {E : Env} (a : App E) := (loading a, err a).

(** The navigation invariant: a selection is held exactly from its level
    downwards. *)
Definition nav_inv {E : Env} (a : App E) : Prop :=
  (currentRepo a <> None <-> 1 <= level (state a)) /\
  (currentPR a <> None <-> 2 <= level (state a)) /\
  (currentComment a <> None <-> level (state a) = 3).

(** The comments a result leaves in the list for a setting of
    [showReplies]. *)
Definition visible (showReplies : bool) (comments : list PullRequestComment)
  : list PullRequestComment :=
  if showReplies then comments
  else filter (fun c => (int (c_InReplyTo c) =? 0)%Z) comments.

(** A fetch result that carries no error. *)
Definition ok_result (msg : tea.Msg) : bool :=
  match msg with
  | tea.ReposMsg _ None | tea.PRsMsg _ None | tea.CommentsMsg _ None => true
  | _ => false
  end.

(** A terminal dimension: a non-negative [int]. *)
Definition dimension (z : Z) : Prop := 0 <= z <= max_int.

End spec.

(* ================================================================= *)
(** ** internal/app/app.go: the text of the comment detail *)

Module detail.

Import github ui app.
Open Scope string_scope.

Definition newline : string := String "010"%char "".

(** [c.GetStartLine()] and [c.GetOriginalStartLine()] on a possibly nil
    comment. *)
Definition GetStartLine (c : option PullRequestComment) : Z :=
  match c with Some c' => int (c_StartLine c') | None => 0 end.
Definition GetOriginalStartLine (c : option PullRequestComment) : Z :=
  match c with Some c' => int (c_OriginalStartLine c') | None => 0 end.

(** The author and time lines of [buildCommentDetail] (app.go 604-615),
    for the comment [a.currentComment], which is not nil there.  The
    condition of line 611 dereferences [CreatedAt] whenever [UpdatedAt]
    is not nil; on a nil [CreatedAt] that is a run-time panic, rendered
    as [None]. *)
Definition commentMeta (c : PullRequestComment) : option string :=
  let author := GetLogin (c_User c) in
  let created :=
    match c_CreatedAt c with
    | Some t => time.Format t "2006-01-02 15:04"
    | None => ""
    end in
  let updated :=
    match c_UpdatedAt c with
    | Some u =>
        match c_CreatedAt c with
        | Some t =>
            Some (if negb (time.Equal u t)
                  then " (updated " ++ time.Format u "2006-01-02 15:04" ++ ")"
                  else "")
        | None => None
        end
    | None => Some ""
    end in
  match updated with
  | Some updated => Some ("By: " ++ author ++ newline ++ "Created: " ++ created ++ updated)
  | None => None
  end.

Section Detail.

Context {E : Env}.

Definition infoStyle : Style := [Foreground "248"].

(** [renderFileContext] (app.go 725-757). *)
Definition renderFileContext (a : App E) (path : string) (line originalLine : Z)
  : string :=
  if String.eqb path "" then ""
  else
    let info : list string := [] in
    let info := (info ++ [("üìÅ " ++ path)%string])%list in
    let info :=
      if negb (line =? 0)%Z then
        let startLine := GetStartLine (currentComment a) in
        if negb (startLine =? 0)%Z && negb (startLine =? line)%Z
        then (info ++ [("üìç Lines: L" ++ gofmt.itoa startLine ++ "-" ++ gofmt.itoa line)%string])%list
        else (info ++ [("üìç Line: L" ++ gofmt.itoa line)%string])%list
      else info in
    let info :=
      if negb (originalLine =? 0)%Z && negb (originalLine =? line)%Z then
        let originalStartLine := GetOriginalStartLine (currentComment a) in
        if negb (originalStartLine =? 0)%Z && negb (originalStartLine =? originalLine)%Z
        then (info ++ [("üìç Original Lines: L" ++ gofmt.itoa originalStartLine ++ "-"
                         ++ gofmt.itoa originalLine)%string])%list
        else (info ++ [("üìç Original Line: L" ++ gofmt.itoa originalLine)%string])%list
      else info in
    Render infoStyle (gofmt.Join info " ‚Ä¢ ").

End Detail.

End detail.

(* ================================================================= *)
(** ** A further law of the viewport widget *)

Module widgets.

Import app.

(** [SetContent] stores the lines and may move the offset; it leaves the
    size of the viewport alone. *)
Class ViewportLaws (E : Env) : Prop := {
  viewport_SetContent_size :
    forall (s : string) (v : viewport_Model),
      Width (viewport_SetContent s v) = Width v /\
      Height (viewport_SetContent s v) = Height v
}.

End widgets.

(* ================================================================= *)
(** ** Further vocabulary *)

Module terms.

Import github tea ui app.
Open Scope string_scope.

(** A fetch result, with or without an error. *)
Definition is_result (msg : Msg) : bool :=
  match msg with
  | ReposMsg _ _ | PRsMsg _ _ | CommentsMsg _ _ => true
  | _ => false
  end.

(** The current level has nothing to enter: its list has no selected
    item, or the level is the comment detail. *)
Definition nothing_selected {E : Env} (a : App E) : Prop :=
  match state a with
  | StateRepos => list_SelectedItem (repoList a) = None
  | StatePRs => list_SelectedItem (prList a) = None
  | StateComments => list_SelectedItem (commentList a) = None
  | StateCommentDetail => True
  end.

(** The current level has a selected item to enter, and the filter
    prompt of the list that Enter leads to is not open. *)
Definition can_enter {E : Env} (a : App E) : Prop :=
  match state a with
  | StateRepos =>
      list_SelectedItem (repoList a) <> None /\ list_SettingFilter (prList a) = false
  | StatePRs =>
      list_SelectedItem (prList a) <> None /\ list_SettingFilter (commentList a) = false
  | StateComments => list_SelectedItem (commentList a) <> None
  | StateCommentDetail => False
  end.

(** The repositories that one organization contributes to the result of
    [FetchRepos]: none when its listing fails. *)
Definition org_repos {V : ghclient.Service} (org : ghclient.Organization)
  : list Repository :=
  match ghclient.Repositories_ListByOrg (str (ghclient.org_Login org)) with
  | inr orgRepos => orgRepos
  | inl _ => []
  end.

(** A title line cut to 80 bytes. *)
Definition clip (line : string) : string :=
  if (80 <? Z.of_nat (String.length line))%Z
  then String.substring 0 77 line ++ "..."
  else line.

(** A comment covers several lines. *)
Definition multi_line (start end_ : Z) : bool :=
  negb (start =? 0)%Z && negb (start =? end_)%Z.

(** The labels and marks of the file context in the detail view. *)
Definition folder_mark : string := "üìÅ ".
Definition line_label (multi : bool) : string :=
  if multi then "üìç Lines: " else "üìç Line: ".
Definition original_label (multi : bool) : string :=
  if multi then "üìç Original Lines: " else "üìç Original Line: ".
Definition bullet : string := " ‚Ä¢ ".

(** The status line after a copy that succeeded. *)
Definition copied (promptType : string) : string :=
  "‚úÖ " ++ promptType ++ " prompt copied to clipboard!".

(** One minute, in nanoseconds. *)
Definition minute : Z := 60000000000.

(** The first comment was not updated before the second: both carry an
    update time and the first is not the earlier one, or the second
    carries none. *)
Definition not_older (x y : PullRequestComment) : Prop :=
  match c_UpdatedAt x, c_UpdatedAt y with
  | Some tx, Some ty => ty <= tx
  | None, Some _ => False
  | _, None => True
  end.

(** No message of the list is a fetch result. *)
Definition no_result (msgs : list Msg) : bool :=
  forallb (fun msg => negb (is_result msg)) msgs.

End terms.

(* ================================================================= *)
(** ** Further sample data *)

Module samples.

Import github tea ui app.
Open Scope string_scope.

(** [strings.TrimSpace] and the replacement of [^\s*#\s*] on ASCII
    text. *)
Definition is_space (c : ascii) : bool :=
  existsb (Ascii.eqb c) [" "; "009"; "010"; "011"; "012"; "013"]%char.

Fixpoint drop_space (s : string) : string :=
  match s with
  | String c s' => if is_space c then drop_space s' else s
  | EmptyString => ""
  end.

Definition trim_space (s : string) : string :=
  gofmt.rev_string "" (drop_space (gofmt.rev_string "" (drop_space s))).

Definition is_re_space (c : ascii) : bool :=
  existsb (Ascii.eqb c) [" "; "009"; "010"; "012"; "013"]%char.

Fixpoint drop_re_space (s : string) : string :=
  match s with
  | String c s' => if is_re_space c then drop_re_space s' else s
  | EmptyString => ""
  end.

Definition strip_heading (s : string) : string :=
  match drop_re_space s with
  | String "#"%char rest => drop_re_space rest
  | _ => s
  end.

Definition with_body (body : string) : PullRequestComment :=
  {| c_Body := Some body; c_User := Some sim.octo;
     c_CreatedAt := Some 1705312800000000000%Z; c_UpdatedAt := None;
     c_Path := None; c_Line := None; c_StartLine := None;
     c_OriginalLine := None; c_OriginalStartLine := None; c_InReplyTo := None |}.

(** A comment whose first line is a bare heading mark. *)
Definition bare_heading : PullRequestComment :=
  with_body ("#" ++ detail.newline ++ "Please rename this").

(** A comment edited [delta] nanoseconds after it was written. *)
Definition edited (delta : Z) : PullRequestComment :=
  sim.note (Some (1705312800000000000 + delta)%Z) 0 12 10 0 0.

(** A comment that carries an update time and no creation time. *)
Definition never_created : PullRequestComment :=
  {| c_Body := Some "Please rename this"; c_User := Some sim.octo;
     c_CreatedAt := None; c_UpdatedAt := Some 1705312800000000000%Z;
     c_Path := None; c_Line := None; c_StartLine := None;
     c_OriginalLine := None; c_OriginalStartLine := None; c_InReplyTo := None |}.

(** A comment moved from lines 3-4 to lines 10-12. *)
Definition moved : PullRequestComment :=
  sim.note (Some 1705312800000000000%Z) 0 12 10 4 3.

(** The detail view of [moved]. *)
Definition at_moved : App sim.simple_env :=
  run New (sim.to_prs ++ [KeyMsg "enter"; CommentsMsg [moved] None; KeyMsg "enter"])%list.

(** A service where the repository of the user is also listed by the
    user's organization, and a second organization cannot be listed. *)
Definition acme : ghclient.Organization := {| ghclient.org_Login := Some "acme" |}.
Definition closed_org : ghclient.Organization := {| ghclient.org_Login := Some "closed" |}.

Definition org_service : ghclient.Service := {|
  ghclient.Repositories_List := inr [sim.bare_repo];
  ghclient.Organizations_List := inr [closed_org; acme];
  ghclient.Repositories_ListByOrg :=
    fun org => if String.eqb org "acme" then inr [sim.bare_repo] else inl "forbidden";
  ghclient.PullRequests_List := fun _ _ => inr [sim.pull 3; sim.pull 7; sim.pull 5];
  ghclient.PullRequests_ListComments :=
    fun _ _ _ => inr [sim.undated; sim.top_level 1; sim.reply_to 1 2; sim.top_level 5]
|}.

(** A service that fails every request. *)
Definition down_service : ghclient.Service := {|
  ghclient.Repositories_List := inl "timeout";
  ghclient.Organizations_List := inl "timeout";
  ghclient.Repositories_ListByOrg := fun _ => inl "timeout";
  ghclient.PullRequests_List := fun _ _ => inl "timeout";
  ghclient.PullRequests_ListComments := fun _ _ _ => inl "timeout"
|}.

End samples.

(* ================================================================= *)
(** ** Item adapters *)

(** Splits a conjunction of statements without touching the statements. *)
Ltac conjuncts := repeat match goal with |- _ /\ _ => split end.

Module UiFacts.

Import github ui spec.
Open Scope string_scope.

Lemma append_nonempty (a : string) (c : ascii) (b : string) :
  nonempty (a ++ String c b) = true.
Proof. destruct a; reflexivity. Qed.

Lemma append_assoc (a b c : string) : (a ++ b) ++ c = a ++ (b ++ c).
Proof. induction a as [|x a IH]; simpl; [reflexivity | now rewrite IH]. Qed.

Lemma append_empty_r (a : string) : a ++ "" = a.
Proof. induction a as [|x a IH]; simpl; [reflexivity | now rewrite IH]. Qed.

Lemma date_nonempty (t : time.Time) : nonempty (time.Format t "2006-01-02") = true.
Proof.
  change (time.Format t "2006-01-02") with (time.date_string t).
  unfold time.date_string.
  destruct (time.civil_from_days _) as [[y m] d].
  apply append_nonempty.
Qed.

Lemma nonempty_false (s : string) : nonempty s = false -> s = "".
Proof. unfold nonempty. destruct s; [reflexivity | discriminate]. Qed.

Lemma body_or_placeholder_eq (i : RepoItem) :
  (if String.eqb (str (repo_Description (Repo i))) "" then "No description"
   else str (repo_Description (Repo i))) = body_or_placeholder i.
Proof.
  unfold body_or_placeholder, nonempty.
  now destruct (String.eqb (str (repo_Description (Repo i))) "").
Qed.

Lemma RepoItem_Description_segments (i : RepoItem) :
  RepoItem_Description i =
  body_or_placeholder i
    ++ (if nonempty (str (repo_Language (Repo i)))
        then " • " ++ str (repo_Language (Repo i)) else "")
    ++ match repo_UpdatedAt (Repo i) with
       | Some t => " • Updated " ++ time.Format t "2006-01-02"
       | None => ""
       end.
Proof.
  unfold RepoItem_Description. rewrite body_or_placeholder_eq.
  destruct (repo_UpdatedAt (Repo i)) as [t|].
  - rewrite (date_nonempty t).
    destruct (nonempty (str (repo_Language (Repo i)))); cbn [andb].
    + now rewrite !append_assoc.
    + reflexivity.
  - destruct (nonempty (str (repo_Language (Repo i)))); cbn [andb nonempty String.eqb negb].
    + now rewrite append_empty_r.
    + now rewrite append_empty_r.
Qed.

Lemma PRItem_Description_flags (i : PRItem) :
  PRItem_Description i =
  (match flag (pr_Draft (PR i)), flag (pr_Merged (PR i)) with
   | false, false => ""
   | true, false => "[DRAFT] "
   | false, true => "[MERGED] "
   | true, true => "[DRAFT, MERGED] "
   end)
    ++ "by " ++ GetLogin (pr_User (PR i)) ++ " • Created "
    ++ match pr_CreatedAt (PR i) with
       | Some t => time.Format t "2006-01-02"
       | None => ""
       end.
Proof.
  unfold PRItem_Description.
  destruct (flag (pr_Draft (PR i))), (flag (pr_Merged (PR i))); reflexivity.
Qed.

Lemma CommentItem_fileInfo_rule (i : CommentItem) :
  nonempty (str (c_Path (Comment i))) = true ->
  CommentItem_fileInfo i =
  " • " ++ str (c_Path (Comment i))
    ++ (if (int (c_Line (Comment i)) =? 0)%Z then ""
        else " " ++ range_text (int (c_StartLine (Comment i))) (int (c_Line (Comment i))))
    ++ orig_suffix (Comment i).
Proof.
  intros Hp. unfold CommentItem_fileInfo, orig_suffix, range_text. rewrite Hp.
  destruct (int (c_Line (Comment i)) =? 0)%Z;
    destruct (int (c_StartLine (Comment i)) =? 0)%Z;
    destruct (int (c_StartLine (Comment i)) =? int (c_Line (Comment i)))%Z;
    destruct (int (c_OriginalLine (Comment i)) =? 0)%Z;
    destruct (int (c_OriginalLine (Comment i)) =? int (c_Line (Comment i)))%Z;
    destruct (int (c_OriginalStartLine (Comment i)) =? 0)%Z;
    destruct (int (c_OriginalStartLine (Comment i)) =? int (c_OriginalLine (Comment i)))%Z;
    cbn [andb negb]; rewrite ?append_assoc, ?append_empty_r; reflexivity.
Qed.

Lemma CommentItem_Description_rule (i : CommentItem) :
  nonempty (str (c_Path (Comment i))) = true ->
  CommentItem_Description i =
  described_path i
    ++ (if (int (c_Line (Comment i)) =? 0)%Z then ""
        else " " ++ range_text (int (c_StartLine (Comment i))) (int (c_Line (Comment i))))
    ++ orig_suffix (Comment i).
Proof.
  intros Hp. unfold CommentItem_Description, described_path.
  rewrite (CommentItem_fileInfo_rule i Hp), !append_assoc. reflexivity.
Qed.

Lemma orig_suffix_absent (c : PullRequestComment) :
  int (c_OriginalLine c) = 0%Z \/ int (c_OriginalLine c) = int (c_Line c) ->
  orig_suffix c = "".
Proof.
  unfold orig_suffix. intros [H | H]; rewrite H.
  - reflexivity.
  - rewrite Z.eqb_refl. now rewrite andb_false_r.
Qed.

(** C8, as amended.  Each adapter is a function of its record, so two
    calls on one record agree.  A repository description is the body
    text or the placeholder [No description], followed by the language
    and the update date only when they are present; a pull-request
    description carries exactly the flags that are set; a comment
    description has no line range when the line is absent, no original
    range when the original line is absent or equal to the line, and no
    file part at all without a path.  A repository with no description
    and no language yields the placeholder, then the separator, then
    the update date. *)
Theorem adapters_omit_empty_segments :
  (forall i j : RepoItem, i = j ->
     RepoItem_Title i = RepoItem_Title j /\
     RepoItem_Description i = RepoItem_Description j) /\
  (forall i j : PRItem, i = j ->
     PRItem_Title i = PRItem_Title j /\
     PRItem_Description i = PRItem_Description j) /\
  (forall (trim strip : string -> string) (i j : CommentItem), i = j ->
     CommentItem_Title trim strip i = CommentItem_Title trim strip j /\
     CommentItem_Description i = CommentItem_Description j) /\
  (forall i : RepoItem, str (repo_Language (Repo i)) = "" ->
     RepoItem_Description i =
     body_or_placeholder i
       ++ match repo_UpdatedAt (Repo i) with
          | Some t => " • Updated " ++ time.Format t "2006-01-02"
          | None => ""
          end) /\
  (forall i : RepoItem, repo_UpdatedAt (Repo i) = None ->
     RepoItem_Description i =
     body_or_placeholder i
       ++ (if nonempty (str (repo_Language (Repo i)))
           then " • " ++ str (repo_Language (Repo i)) else "")) /\
  (forall i : PRItem,
     PRItem_Description i =
     (match flag (pr_Draft (PR i)), flag (pr_Merged (PR i)) with
      | false, false => ""
      | true, false => "[DRAFT] "
      | false, true => "[MERGED] "
      | true, true => "[DRAFT, MERGED] "
      end)
       ++ "by " ++ GetLogin (pr_User (PR i)) ++ " • Created "
       ++ match pr_CreatedAt (PR i) with
          | Some t => time.Format t "2006-01-02"
          | None => ""
          end) /\
  (forall i : CommentItem, str (c_Path (Comment i)) = "" ->
     CommentItem_Description i =
     "by " ++ GetLogin (c_User (Comment i)) ++ " • " ++ CommentItem_timeInfo i) /\
  (forall i : CommentItem, nonempty (str (c_Path (Comment i))) = true ->
     int (c_Line (Comment i)) = 0%Z ->
     CommentItem_Description i = described_path i ++ orig_suffix (Comment i)) /\
  (forall i : CommentItem, nonempty (str (c_Path (Comment i))) = true ->
     int (c_OriginalLine (Comment i)) = 0%Z \/
     int (c_OriginalLine (Comment i)) = int (c_Line (Comment i)) ->
     CommentItem_Description i =
     described_path i
       ++ (if (int (c_Line (Comment i)) =? 0)%Z then ""
           else " " ++ range_text (int (c_StartLine (Comment i)))
                         (int (c_Line (Comment i))))) /\
  (forall (i : RepoItem) (t : time.Time),
     str (repo_Description (Repo i)) = "" ->
     str (repo_Language (Repo i)) = "" ->
     repo_UpdatedAt (Repo i) = Some t ->
     RepoItem_Description i = "No description • Updated " ++ time.Format t "2006-01-02").
Proof.
  conjuncts.
  - intros i j ->. now split.
  - intros i j ->. now split.
  - intros trim strip i j ->. now split.
  - intros i Hl. rewrite RepoItem_Description_segments, Hl. reflexivity.
  - intros i Hu. rewrite RepoItem_Description_segments, Hu.
    now rewrite append_empty_r.
  - intros i. apply PRItem_Description_flags.
  - intros i Hp. unfold CommentItem_Description, CommentItem_fileInfo.
    rewrite Hp. cbn [nonempty String.eqb negb]. now rewrite append_empty_r.
  - intros i Hp Hl. rewrite (CommentItem_Description_rule i Hp), Hl. reflexivity.
  - intros i Hp Ho. rewrite (CommentItem_Description_rule i Hp).
    rewrite (orig_suffix_absent _ Ho). now rewrite append_empty_r.
  - intros i t Hd Hl Hu. rewrite RepoItem_Description_segments, Hl, Hu.
    unfold body_or_placeholder. rewrite Hd. reflexivity.
Qed.

(** C8, the claim as written fails: a repository with no description
    and no language is described by the placeholder, the separator and
    the update date, not by the update date alone. *)
Lemma repo_description_keeps_placeholder :
  RepoItem_Description {| Repo := sim.bare_repo |} = "No description • Updated 2024-01-15" /\
  RepoItem_Description {| Repo := sim.bare_repo |} <> "Updated 2024-01-15" /\
  RepoItem_Description {| Repo := sim.bare_repo |} <> "2024-01-15".
Proof.
  split; [reflexivity | split]; intros H; vm_compute in H; discriminate H.
Qed.

(** C9.  With a file path and a line, the description of a comment ends
    in the current range, [L<start>-<end>] when the start line is
    present and differs from the line and [L<line>] otherwise, followed
    by [(orig ...)] built by the same rule when the original line is
    set and differs from the line, and only then; the prompt generator
    builds its two ranges by the same rule.  The three scenarios of the
    specification follow. *)
Theorem comment_line_ranges :
  (forall i : CommentItem,
     nonempty (str (c_Path (Comment i))) = true ->
     int (c_Line (Comment i)) <> 0%Z ->
     CommentItem_Description i =
     described_path i
       ++ " " ++ range_text (int (c_StartLine (Comment i))) (int (c_Line (Comment i)))
       ++ orig_suffix (Comment i)) /\
  (forall c : PullRequestComment,
     orig_suffix c <> "" -> int (c_OriginalLine c) <> int (c_Line c)) /\
  (forall c : PullRequestComment,
     int (c_Line c) <> 0%Z ->
     prompt.LineRange (prompt.buildTemplateData_Comment c) =
     range_text (int (c_StartLine c)) (int (c_Line c))) /\
  (forall c : PullRequestComment,
     prompt.OriginalLineRange (prompt.buildTemplateData_Comment c) =
     if negb (int (c_OriginalLine c) =? 0)%Z
        && negb (int (c_OriginalLine c) =? int (c_Line c))%Z
     then range_text (int (c_OriginalStartLine c)) (int (c_OriginalLine c))
     else "") /\
  (forall i : CommentItem,
     nonempty (str (c_Path (Comment i))) = true ->
     int (c_Line (Comment i)) = 12%Z ->
     int (c_StartLine (Comment i)) = 12%Z ->
     int (c_OriginalLine (Comment i)) = 12%Z ->
     CommentItem_Description i = described_path i ++ " L12") /\
  (forall i : CommentItem,
     nonempty (str (c_Path (Comment i))) = true ->
     int (c_Line (Comment i)) = 20%Z ->
     int (c_StartLine (Comment i)) = 15%Z ->
     CommentItem_Description i =
     described_path i ++ " L15-20" ++ orig_suffix (Comment i)) /\
  (forall i : CommentItem,
     nonempty (str (c_Path (Comment i))) = true ->
     int (c_Line (Comment i)) = 20%Z ->
     int (c_StartLine (Comment i)) = 20%Z ->
     int (c_OriginalLine (Comment i)) = 10%Z ->
     int (c_OriginalStartLine (Comment i)) = 8%Z ->
     CommentItem_Description i = described_path i ++ " L20 (orig L8-10)").
Proof.
  conjuncts.
  - intros i Hp Hl. rewrite (CommentItem_Description_rule i Hp).
    apply Z.eqb_neq in Hl. rewrite Hl. reflexivity.
  - intros c Hs He. apply Hs. apply orig_suffix_absent. now right.
  - intros c Hl. apply Z.eqb_neq in Hl.
    unfold prompt.buildTemplateData_Comment, range_text. cbn [prompt.LineRange].
    rewrite Hl. reflexivity.
  - intros c. unfold prompt.buildTemplateData_Comment, range_text.
    cbn [prompt.OriginalLineRange]. reflexivity.
  - intros i Hp Hl Hs Ho. rewrite (CommentItem_Description_rule i Hp).
    rewrite orig_suffix_absent by (right; congruence).
    rewrite Hl, Hs. reflexivity.
  - intros i Hp Hl Hs. rewrite (CommentItem_Description_rule i Hp).
    rewrite Hl, Hs. reflexivity.
  - intros i Hp Hl Hs Ho Hos. rewrite (CommentItem_Description_rule i Hp).
    unfold orig_suffix. rewrite Hl, Hs, Ho, Hos. reflexivity.
Qed.

Lemma adapters_omit_empty_segments_witness :
  (RepoItem_Title {| Repo := sim.bare_repo |} = RepoItem_Title {| Repo := sim.bare_repo |} /\
   RepoItem_Description {| Repo := sim.bare_repo |}
   = RepoItem_Description {| Repo := sim.bare_repo |}) /\
  RepoItem_Description {| Repo := sim.bare_repo |}
  = "No description" ++ " • Updated " ++ time.Format 1705312800000000000%Z "2006-01-02" /\
  CommentItem_Description {| Comment := sim.note None 0 0 0 9 0 |}
  = described_path {| Comment := sim.note None 0 0 0 9 0 |} ++ " (orig L9)" /\
  CommentItem_Description {| Comment := sim.note None 0 12 0 12 0 |}
  = described_path {| Comment := sim.note None 0 12 0 12 0 |} ++ " L12" /\
  RepoItem_Description {| Repo := sim.bare_repo |}
  = "No description • Updated " ++ time.Format 1705312800000000000%Z "2006-01-02".
Proof.
  destruct adapters_omit_empty_segments
    as (Hrepo & _ & _ & Hlang & _ & _ & _ & Hline & Horig & Hbare).
  conjuncts.
  - apply (Hrepo {| Repo := sim.bare_repo |} {| Repo := sim.bare_repo |}). reflexivity.
  - apply (Hrepo {| Repo := sim.bare_repo |} {| Repo := sim.bare_repo |}). reflexivity.
  - apply (Hlang {| Repo := sim.bare_repo |}). reflexivity.
  - apply (Hline {| Comment := sim.note None 0 0 0 9 0 |}); reflexivity.
  - apply (Horig {| Comment := sim.note None 0 12 0 12 0 |}); [reflexivity | right; reflexivity].
  - apply (Hbare {| Repo := sim.bare_repo |} 1705312800000000000%Z); reflexivity.
Defined.

Lemma comment_line_ranges_witness :
  CommentItem_Description {| Comment := sim.note None 0 12 12 12 0 |}
  = described_path {| Comment := sim.note None 0 12 12 12 0 |} ++ " L12" /\
  CommentItem_Description {| Comment := sim.note None 0 20 15 0 0 |}
  = described_path {| Comment := sim.note None 0 20 15 0 0 |} ++ " L15-20" ++ "" /\
  CommentItem_Description {| Comment := sim.note None 0 20 20 10 8 |}
  = described_path {| Comment := sim.note None 0 20 20 10 8 |} ++ " L20 (orig L8-10)" /\
  CommentItem_Description {| Comment := sim.note None 0 20 15 10 8 |}
  = described_path {| Comment := sim.note None 0 20 15 10 8 |}
      ++ " " ++ "L15-20" ++ " (orig L8-10)" /\
  prompt.LineRange (prompt.buildTemplateData_Comment (sim.note None 0 20 15 10 8)) = "L15-20" /\
  int (c_OriginalLine (sim.note None 0 20 15 10 8)) <> int (c_Line (sim.note None 0 20 15 10 8)).
Proof.
  destruct comment_line_ranges as (Hrule & Honly & Hprompt & _ & Hs1 & Hs2 & Hs3).
  conjuncts.
  - apply (Hs1 {| Comment := sim.note None 0 12 12 12 0 |}); reflexivity.
  - apply (Hs2 {| Comment := sim.note None 0 20 15 0 0 |}); reflexivity.
  - apply (Hs3 {| Comment := sim.note None 0 20 20 10 8 |}); reflexivity.
  - apply (Hrule {| Comment := sim.note None 0 20 15 10 8 |}); [reflexivity | discriminate].
  - apply (Hprompt (sim.note None 0 20 15 10 8)). discriminate.
  - apply (Honly (sim.note None 0 20 15 10 8)). discriminate.
Defined.

End UiFacts.

(* ================================================================= *)
(** ** Order of the fetched lists *)

Module FetchFacts.

Import github tea ghclient.

Lemma StronglySorted_nth {A : Type} (R : A -> A -> Prop) (l : list A) :
  StronglySorted R l ->
  forall i j a b, (i < j)%nat ->
    nth_error l i = Some a -> nth_error l j = Some b -> R a b.
Proof.
  induction 1 as [|x l Hs IH Hx]; intros i j a b Hij Hi Hj.
  - destruct i; discriminate.
  - destruct j as [|j]; [lia|]. destruct i as [|i]; simpl in Hi, Hj.
    + injection Hi as <-. rewrite Forall_forall in Hx.
      apply Hx. eapply nth_error_In; eassumption.
    + apply (IH i j); [lia | assumption | assumption].
Qed.

Lemma less_asym {A : Type} (less : A -> A -> bool) :
  LessOrder less -> forall x y, less x y = true -> less y x = false.
Proof.
  intros O x y Hxy. destruct (less y x) eqn:Hyx; [|reflexivity].
  rewrite <- (less_irrefl less O x). symmetry.
  apply (less_trans less O x y x); assumption.
Qed.

Lemma prLess_order : LessOrder prLess.
Proof.
  unfold prLess. split; intros; rewrite ?Z.gtb_ltb in *;
    rewrite ?Z.ltb_lt, ?Z.ltb_ge in *; lia.
Qed.

Lemma commentLess_order : LessOrder commentLess.
Proof.
  unfold commentLess, time.After. split.
  - intros x. destruct (c_UpdatedAt x); [|reflexivity].
    rewrite Z.gtb_ltb. apply Z.ltb_irrefl.
  - intros x y z.
    destruct (c_UpdatedAt x), (c_UpdatedAt y), (c_UpdatedAt z);
      try discriminate; try reflexivity.
    rewrite !Z.gtb_ltb, !Z.ltb_lt. lia.
  - intros x y z.
    destruct (c_UpdatedAt x), (c_UpdatedAt y), (c_UpdatedAt z);
      try discriminate; try reflexivity.
    rewrite !Z.gtb_ltb, !Z.ltb_ge. lia.
Qed.

(** *** The insertion sorters meet the contract of [sort.Slice] *)

Section Insertion.

Context {A : Type} (less : A -> A -> bool).

Lemma insert_perm (x : A) (l : list A) : Permutation (x :: l) (insert less x l).
Proof.
  induction l as [|y l IH]; simpl.
  - apply Permutation_refl.
  - destruct (less y x).
    + eapply perm_trans; [apply perm_swap | apply perm_skip, IH].
    + apply Permutation_refl.
Qed.

Lemma isort_perm (l : list A) : Permutation l (isort less l).
Proof.
  induction l as [|x l IH]; simpl.
  - apply perm_nil.
  - eapply perm_trans; [apply perm_skip, IH | apply insert_perm].
Qed.

Hypothesis order : LessOrder less.

Lemma insert_sorted (x : A) (l : list A) :
  StronglySorted (fun a b => less b a = false) l ->
  StronglySorted (fun a b => less b a = false) (insert less x l).
Proof.
  induction 1 as [|y l Hs IH Hy]; simpl.
  - constructor; constructor.
  - destruct (less y x) eqn:Hyx.
    + constructor; [assumption|].
      apply (Permutation_Forall (insert_perm x l)).
      constructor; [apply (less_asym less order), Hyx | assumption].
    + constructor; [constructor; assumption|].
      constructor; [assumption|].
      rewrite Forall_forall in Hy |- *. intros z Hz.
      apply (less_negtrans less order z y x); [apply Hy, Hz | assumption].
Qed.

Lemma isort_sorted (l : list A) :
  StronglySorted (fun a b => less b a = false) (isort less l).
Proof.
  induction l as [|x l IH]; simpl.
  - constructor.
  - apply insert_sorted, IH.
Qed.

End Insertion.

Lemma insertion_sorter_laws : SorterLaws insertion_sorter.
Proof.
  split; intros A less l.
  - apply isort_perm.
  - intros O. apply isort_sorted, O.
Qed.

Lemma mirrored_sorter_laws : SorterLaws mirrored_sorter.
Proof.
  split; intros A less l; simpl.
  - eapply perm_trans; [apply Permutation_rev | apply isort_perm].
  - intros O. apply isort_sorted, O.
Qed.

(** Two lawful sorters disagree on comments with one timestamp: the
    order of ties is left open. *)
Remark tie_order_is_open :
  @sort_Slice insertion_sorter _ commentLess [sim.top_level 1; sim.reply_to 4 1]
  = [sim.top_level 1; sim.reply_to 4 1] /\
  @sort_Slice mirrored_sorter _ commentLess [sim.top_level 1; sim.reply_to 4 1]
  = [sim.reply_to 4 1; sim.top_level 1].
Proof. split; reflexivity. Qed.

Section Delivered.

Context {S : Sorter} {L : SorterLaws S} {V : Service}.

(** C6.  The pull requests of a repository carry pairwise distinct
    numbers; whatever order the service answers in, the list in the
    result message holds the same pull requests with the number at
    every position strictly greater than the number at every later
    position. *)
Theorem FetchPRs_descending (repo : Repository) (prs : list PullRequest) :
  PullRequests_List (GetLogin (repo_Owner repo)) (str (repo_Name repo)) = inr prs ->
  NoDup (map (fun p => int (pr_Number p)) prs) ->
  exists delivered,
    FetchPRs (Some repo) = PRsMsg delivered None /\
    Permutation prs delivered /\
    forall i j a b, (i < j)%nat ->
      nth_error delivered i = Some a -> nth_error delivered j = Some b ->
      int (pr_Number a) > int (pr_Number b).
Proof.
  intros Hresp Hnd. exists (sort_Slice prLess prs).
  unfold FetchPRs. rewrite Hresp.
  pose proof (sort_Slice_perm _ prLess prs) as Hperm.
  pose proof (sort_Slice_sorted _ prLess prs prLess_order) as Hsorted.
  conjuncts; [reflexivity | assumption |].
  intros i j a b Hij Hi Hj.
  pose proof (StronglySorted_nth _ _ Hsorted i j a b Hij Hi Hj) as Hge.
  unfold prLess in Hge. rewrite Z.gtb_ltb, Z.ltb_ge in Hge.
  assert (Hne : int (pr_Number a) <> int (pr_Number b)).
  { intros Heq.
    assert (Hnd' : NoDup (map (fun p => int (pr_Number p)) (sort_Slice prLess prs))).
    { eapply Permutation_NoDup; [apply Permutation_map, Hperm | exact Hnd]. }
    rewrite NoDup_nth_error in Hnd'.
    assert (i = j); [|lia].
    apply Hnd'.
    - rewrite length_map. apply nth_error_Some. rewrite Hi. discriminate.
    - rewrite !nth_error_map, Hi, Hj. simpl. now rewrite Heq. }
  lia.
Qed.

(** C7.  The comment list in the result message holds the comments of
    the answer; a comment with a later update time stands before one
    with an earlier update time, every comment without an update time
    stands after every comment with one, and the comparison treats two
    comments with equal or with absent update times as equal. *)
Theorem FetchComments_order (repo : Repository) (pr : PullRequest)
    (comments : list PullRequestComment) :
  PullRequests_ListComments (GetLogin (repo_Owner repo)) (str (repo_Name repo))
    (int (pr_Number pr)) = inr comments ->
  exists delivered,
    FetchComments (Some repo) (Some pr) = CommentsMsg delivered None /\
    Permutation comments delivered /\
    (forall i j a b ta tb,
       nth_error delivered i = Some a -> nth_error delivered j = Some b ->
       c_UpdatedAt a = Some ta -> c_UpdatedAt b = Some tb ->
       time.After ta tb = true -> (i < j)%nat) /\
    (forall i j a b ta,
       nth_error delivered i = Some a -> nth_error delivered j = Some b ->
       c_UpdatedAt a = Some ta -> c_UpdatedAt b = None -> (i < j)%nat) /\
    (forall a b,
       (c_UpdatedAt a = None /\ c_UpdatedAt b = None) \/
       (exists t u, c_UpdatedAt a = Some t /\ c_UpdatedAt b = Some u /\
                    time.Equal t u = true) ->
       commentLess a b = false /\ commentLess b a = false).
Proof.
  intros Hresp. exists (sort_Slice commentLess comments).
  unfold FetchComments. rewrite Hresp.
  pose proof (sort_Slice_perm _ commentLess comments) as Hperm.
  pose proof (sort_Slice_sorted _ commentLess comments commentLess_order) as Hsorted.
  assert (Hbefore : forall i j a b,
             nth_error (sort_Slice commentLess comments) i = Some a ->
             nth_error (sort_Slice commentLess comments) j = Some b ->
             commentLess a b = true -> (i < j)%nat).
  { intros i j a b Hi Hj Hless.
    destruct (Nat.lt_trichotomy i j) as [Hlt | [Heq | Hgt]].
    - exact Hlt.
    - subst j. rewrite Hi in Hj. injection Hj as <-.
      rewrite (less_irrefl _ commentLess_order a) in Hless. discriminate.
    - pose proof (StronglySorted_nth _ _ Hsorted j i b a Hgt Hj Hi) as Hno.
      simpl in Hno. rewrite Hno in Hless. discriminate. }
  conjuncts; [reflexivity | assumption | | |].
  - intros i j a b ta tb Hi Hj Ha Hb Hafter.
    apply (Hbefore i j a b Hi Hj). unfold commentLess. now rewrite Ha, Hb.
  - intros i j a b ta Hi Hj Ha Hb.
    apply (Hbefore i j a b Hi Hj). unfold commentLess. now rewrite Ha, Hb.
  - intros a b [[Ha Hb] | (t & u & Ha & Hb & Heq)]; unfold commentLess;
      rewrite Ha, Hb; [split; reflexivity|].
    unfold time.Equal in Heq. apply Z.eqb_eq in Heq. subst u.
    unfold time.After. rewrite Z.gtb_ltb, Z.ltb_irrefl. split; reflexivity.
Qed.

End Delivered.

Lemma FetchPRs_descending_witness :
  exists delivered,
    @FetchPRs insertion_sorter sim.sample_service (Some sim.bare_repo)
    = PRsMsg delivered None /\
    Permutation [sim.pull 3; sim.pull 7; sim.pull 5] delivered /\
    forall i j a b, (i < j)%nat ->
      nth_error delivered i = Some a -> nth_error delivered j = Some b ->
      int (pr_Number a) > int (pr_Number b).
Proof.
  apply (@FetchPRs_descending insertion_sorter insertion_sorter_laws sim.sample_service
           sim.bare_repo [sim.pull 3; sim.pull 7; sim.pull 5]).
  - reflexivity.
  - simpl. repeat constructor; simpl; intuition lia.
Defined.

Lemma FetchComments_order_witness :
  exists delivered,
    @FetchComments insertion_sorter sim.sample_service
      (Some sim.bare_repo) (Some (sim.pull 7))
    = CommentsMsg delivered None /\
    Permutation [sim.undated; sim.top_level 1; sim.top_level 5; sim.reply_to 1 2] delivered /\
    (forall i j a b ta tb,
       nth_error delivered i = Some a -> nth_error delivered j = Some b ->
       c_UpdatedAt a = Some ta -> c_UpdatedAt b = Some tb ->
       time.After ta tb = true -> (i < j)%nat) /\
    (forall i j a b ta,
       nth_error delivered i = Some a -> nth_error delivered j = Some b ->
       c_UpdatedAt a = Some ta -> c_UpdatedAt b = None -> (i < j)%nat) /\
    (forall a b,
       (c_UpdatedAt a = None /\ c_UpdatedAt b = None) \/
       (exists t u, c_UpdatedAt a = Some t /\ c_UpdatedAt b = Some u /\
                    time.Equal t u = true) ->
       commentLess a b = false /\ commentLess b a = false).
Proof.
  apply (@FetchComments_order insertion_sorter insertion_sorter_laws sim.sample_service
           sim.bare_repo (sim.pull 7)
           [sim.undated; sim.top_level 1; sim.top_level 5; sim.reply_to 1 2]).
  reflexivity.
Defined.

(** The delivered lists of the sample service. *)
Example sample_fetches :
  @FetchPRs insertion_sorter sim.sample_service (Some sim.bare_repo)
  = PRsMsg [sim.pull 7; sim.pull 5; sim.pull 3] None /\
  @FetchComments insertion_sorter sim.sample_service (Some sim.bare_repo) (Some (sim.pull 7))
  = CommentsMsg [sim.top_level 5; sim.reply_to 1 2; sim.top_level 1; sim.undated] None.
Proof. split; reflexivity. Qed.

End FetchFacts.

(* ================================================================= *)
(** ** The navigation core *)

Module NavFacts.

Import github tea ui app spec.
Open Scope string_scope.

Lemma wrap_small (z : Z) : min_int <= z <= max_int -> wrap z = z.
Proof.
  unfold wrap, min_int, max_int.
  change (2 ^ 63) with 9223372036854775808.
  change (2 ^ 64) with 18446744073709551616.
  intros H. rewrite Z.mod_small; lia.
Qed.

Lemma isub_dimension (z k : Z) : dimension z -> 0 <= k <= 16 -> isub z k = z - k.
Proof.
  unfold dimension, isub. intros Hz Hk. apply wrap_small.
  unfold min_int, max_int in *. change (2 ^ 63) with 9223372036854775808 in *. lia.
Qed.

Lemma simple_env_laws : EnvLaws sim.simple_env.
Proof.
  split; simpl.
  - reflexivity.
  - intros A m msg. unfold sim.sl_Update.
    destruct msg; try reflexivity.
    repeat match goal with
           | |- context [if ?b then _ else _] => destruct b
           end; reflexivity.
  - intros v msg. split; reflexivity.
Qed.

Section Core.

Context {E : Env}.

(** Reads a field through the assignments in front of it. *)
Ltac fields :=
  cbn [fst snd state repoList prList commentList commentViewport currentRepo
       currentPR currentComment loading err width height copyStatus showReplies
       useSimplePrompt set_state set_repoList set_prList set_commentList
       set_commentViewport set_currentRepo set_currentPR set_currentComment
       set_loading set_err set_width set_height set_copyStatus set_showReplies
       set_useSimplePrompt Width Height YOffset lines set_Width set_Height].

(** Case analysis on every test the handlers make. *)
Ltac cases :=
  repeat match goal with
         | |- context [match ?x with _ => _ end] => destruct x eqn:?
         end.

Lemma updateCurrent_nav (a : App E) (msg : Msg) :
  nav (fst (updateCurrent a msg)) = nav a /\
  status (fst (updateCurrent a msg)) = status a.
Proof.
  unfold updateCurrent, nav, status. cases; simpl; split; congruence.
Qed.

Lemma View_nav (a : App E) :
  nav (fst (View a)) = nav a /\ status (fst (View a)) = status a.
Proof.
  unfold View, nav, status. cases; simpl; split; congruence.
Qed.

(** Decides the three equivalences of [nav_inv] once the level and
    the presence of each selection are known. *)
Ltac settle_inv :=
  repeat match goal with
         | H : _ /\ _ |- _ => destruct H
         | H : _ <-> _ |- _ => destruct H
         end;
  repeat match goal with
         | H : ?x = ?x -> False |- _ => exfalso; exact (H eq_refl)
         | H : ?x <> ?x |- _ => exfalso; exact (H eq_refl)
         | H : ?P -> _ |- _ =>
             first [ specialize (H ltac:(discriminate))
                   | specialize (H ltac:(lia))
                   | clear H ]
         end;
  repeat match goal with
         | |- _ /\ _ => split
         | |- _ <-> _ => split; intros ?
         end;
  try lia; try discriminate; try congruence.

Lemma handleBack_inv (a : App E) : nav_inv a -> nav_inv (fst (handleBack a)).
Proof.
  unfold nav_inv, handleBack.
  destruct (state a) eqn:Hs; simpl; rewrite ?Hs; simpl;
    destruct (currentRepo a), (currentPR a), (currentComment a);
    intros Hinv; settle_inv.
Qed.

Lemma handleEnter_inv (a : App E) : nav_inv a -> nav_inv (fst (handleEnter a)).
Proof.
  unfold nav_inv, handleEnter.
  destruct (state a) eqn:Hs; cases; simpl; rewrite ?Hs; simpl;
    destruct (currentRepo a), (currentPR a), (currentComment a);
    intros Hinv; settle_inv.
Qed.

Lemma nav_inv_nav (a b : App E) : nav b = nav a -> nav_inv a -> nav_inv b.
Proof.
  unfold nav, nav_inv. intros H. injection H as Hs Hr Hp Hc.
  now rewrite Hs, Hr, Hp, Hc.
Qed.

Lemma after_eq (a : App E) (msg : Msg) :
  after a msg = fst (View (fst (Update a msg))).
Proof.
  unfold after, turn. destruct (Update a msg) as [a1 cmd]. simpl.
  destruct (View a1) as [a2 frame]. reflexivity.
Qed.

(** The handlers of the detail and comments keys leave the selection
    and the level alone. *)
Lemma handleCopyPrompt_nav (a : App E) : nav (fst (handleCopyPrompt a)) = nav a.
Proof. unfold handleCopyPrompt, nav. cases; simpl; congruence. Qed.

Lemma handleTogglePromptMode_nav (a : App E) :
  nav (fst (handleTogglePromptMode a)) = nav a.
Proof. reflexivity. Qed.

Lemma handleToggleReplies_nav (a : App E) : nav (fst (handleToggleReplies a)) = nav a.
Proof. reflexivity. Qed.

(** Every event either leaves the selection and the level alone or
    acts as [handleBack] or [handleEnter] on them. *)
Lemma Update_nav_cases (a : App E) (msg : Msg) :
  nav (fst (Update a msg)) = nav a \/
  nav (fst (Update a msg)) = nav (fst (handleBack a)) \/
  nav (fst (Update a msg)) = nav (fst (handleEnter a)).
Proof.
  unfold Update.
  cases;
    lazymatch goal with
    | |- nav (fst (handleBack ?b)) = _ \/ _ => right; left; reflexivity
    | |- nav (fst (handleEnter ?b)) = _ \/ _ => right; right; reflexivity
    | |- nav (fst (handleCopyPrompt ?b)) = _ \/ _ =>
        left; apply handleCopyPrompt_nav
    | |- nav (fst (handleTogglePromptMode ?b)) = _ \/ _ =>
        left; apply handleTogglePromptMode_nav
    | |- nav (fst (handleToggleReplies ?b)) = _ \/ _ =>
        left; apply handleToggleReplies_nav
    | |- nav (fst (updateCurrent ?b ?m)) = _ \/ _ =>
        left; rewrite (proj1 (updateCurrent_nav b m)); reflexivity
    | |- _ => left; unfold nav; cbn [fst]; reflexivity
    end.
Qed.

Lemma handleBack_level (a : App E) :
  Z.abs (level (state (fst (handleBack a))) - level (state a)) <= 1.
Proof. unfold handleBack. destruct (state a) eqn:Hs; simpl; rewrite ?Hs; simpl; lia. Qed.

Lemma handleEnter_level (a : App E) :
  Z.abs (level (state (fst (handleEnter a))) - level (state a)) <= 1.
Proof.
  unfold handleEnter. destruct (state a) eqn:Hs; cases; simpl; rewrite ?Hs; simpl; lia.
Qed.

Lemma Update_level (a : App E) (msg : Msg) :
  Z.abs (level (state (fst (Update a msg))) - level (state a)) <= 1.
Proof.
  destruct (Update_nav_cases a msg) as [H | [H | H]];
    unfold nav in H; injection H as Hs _ _ _; rewrite Hs.
  - rewrite Z.sub_diag. simpl. lia.
  - apply handleBack_level.
  - apply handleEnter_level.
Qed.

Lemma Update_inv (a : App E) (msg : Msg) : nav_inv a -> nav_inv (fst (Update a msg)).
Proof.
  intros Hinv. destruct (Update_nav_cases a msg) as [H | [H | H]].
  - apply (nav_inv_nav a), Hinv. exact H.
  - apply (nav_inv_nav (fst (handleBack a))); [exact H | apply handleBack_inv, Hinv].
  - apply (nav_inv_nav (fst (handleEnter a))); [exact H | apply handleEnter_inv, Hinv].
Qed.

Lemma after_inv (a : App E) (msg : Msg) : nav_inv a -> nav_inv (after a msg).
Proof.
  intros Hinv. rewrite after_eq.
  apply (nav_inv_nav (fst (Update a msg))); [apply View_nav | apply Update_inv, Hinv].
Qed.

Lemma run_inv (msgs : list Msg) :
  forall a : App E, nav_inv a -> nav_inv (run a msgs).
Proof.
  induction msgs as [|msg msgs IH]; intros a Hinv; simpl.
  - exact Hinv.
  - apply IH, after_inv, Hinv.
Qed.

(** C1.  The application starts at Repositories with no selection;
    handling an event moves the level by at most one step of the
    hierarchy; and after every sequence of events (each handled and
    then rendered) the repository, the pull request and the comment
    are selected exactly when the level is at least PullRequests, at
    least Comments, and CommentDetail. *)
Theorem navigation_invariant :
  (state (New (E:=E)) = StateRepos /\ currentRepo (New (E:=E)) = None /\
   currentPR (New (E:=E)) = None /\ currentComment (New (E:=E)) = None) /\
  (forall (a : App E) (msg : Msg),
     Z.abs (level (state (fst (Update a msg))) - level (state a)) <= 1 /\
     state (after a msg) = state (fst (Update a msg))) /\
  (forall msgs : list Msg,
     let a := run (New (E:=E)) msgs in
     (currentRepo a <> None <-> 1 <= level (state a)) /\
     (currentPR a <> None <-> 2 <= level (state a)) /\
     (currentComment a <> None <-> level (state a) = 3)).
Proof.
  conjuncts; try reflexivity.
  - intros a msg. split; [apply Update_level|].
    rewrite after_eq. pose proof (proj1 (View_nav (fst (Update a msg)))) as H.
    unfold nav in H. now injection H.
  - intros msgs. apply (run_inv msgs New).
    unfold nav_inv. simpl. settle_inv.
Qed.

(** *** The Back key *)

Lemma View_keeps (a : App E) :
  state a <> StateCommentDetail -> fst (View a) = a.
Proof.
  intros Hs. unfold View, inDetail.
  destruct (state a) eqn:Hst; try congruence; cbn [State_eqb]; cases; reflexivity.
Qed.


(** C10.  At the root, with no filter being set, the Back key changes
    nothing: the application after handling it, and after the frame
    that follows, is the application before, and the command is the
    nil command, not the quit command. *)
Theorem back_at_root_is_noop (a : App E) :
  state a = StateRepos -> list_SettingFilter (repoList a) = false ->
  Update a (KeyMsg "esc") = (a, CmdNil) /\
  snd (Update a (KeyMsg "esc")) <> Quit /\
  after a (KeyMsg "esc") = a.
Proof.
  intros Hs Hf.
  assert (Hu : Update a (KeyMsg "esc") = (a, CmdNil)).
  { unfold Update. cbn [key_in existsb String.eqb Ascii.eqb Bool.eqb orb].
    rewrite Hs, Hf. unfold handleBack. rewrite Hs. reflexivity. }
  conjuncts.
  - exact Hu.
  - rewrite Hu. discriminate.
  - rewrite after_eq, Hu. apply View_keeps. simpl. congruence.
Qed.

(** *** Fetch results *)

Lemma isub_small (z k : Z) : min_int <= z - k <= max_int -> isub z k = z - k.
Proof. apply wrap_small. Qed.

Lemma filter_all {A : Type} (p : A -> bool) (l : list A) :
  (forall x, p x = true) -> filter p l = l.
Proof.
  intros Hp. induction l as [|x l IH]; simpl; [reflexivity|].
  now rewrite Hp, IH.
Qed.

(** What the frame pass leaves alone: everything but the viewport. *)
Lemma View_frame (a : App E) :
  commentList (fst (View a)) = commentList a /\
  showReplies (fst (View a)) = showReplies a /\
  state (fst (View a)) = state a /\
  currentRepo (fst (View a)) = currentRepo a /\
  currentPR (fst (View a)) = currentPR a.
Proof. unfold View. cases; simpl; conjuncts; congruence. Qed.

Lemma updateCurrent_err (a : App E) (msg : Msg) :
  err (fst (updateCurrent a msg)) = err a /\
  loading (fst (updateCurrent a msg)) = loading a.
Proof.
  pose proof (proj2 (updateCurrent_nav a msg)) as H. unfold status in H.
  injection H as Hl He. now split.
Qed.

Lemma handleBack_err (a : App E) : err (fst (handleBack a)) = err a.
Proof. unfold handleBack. cases; simpl; congruence. Qed.

Lemma handleEnter_err (a : App E) : err (fst (handleEnter a)) = err a.
Proof. unfold handleEnter. cases; simpl; congruence. Qed.

Lemma handleCopyPrompt_err (a : App E) : err (fst (handleCopyPrompt a)) = err a.
Proof. unfold handleCopyPrompt. cases; simpl; congruence. Qed.

(** No event clears a stored error: it stays or is replaced by the
    error of a later result. *)
Lemma Update_err (a : App E) (msg : Msg) :
  err a <> None -> err (fst (Update a msg)) <> None.
Proof.
  intros He. unfold Update.
  cases;
    lazymatch goal with
    | |- err (fst (handleBack ?b)) <> None => now rewrite handleBack_err
    | |- err (fst (handleEnter ?b)) <> None => now rewrite handleEnter_err
    | |- err (fst (handleCopyPrompt ?b)) <> None => now rewrite handleCopyPrompt_err
    | |- err (fst (updateCurrent ?b ?m)) <> None =>
        rewrite (proj1 (updateCurrent_err b m)); exact He
    | |- _ => first [exact He | discriminate]
    end.
Qed.

Lemma View_err (a : App E) : err (fst (View a)) = err a.
Proof. pose proof (proj2 (View_nav a)) as H. unfold status in H. now injection H. Qed.

Lemma run_err (msgs : list Msg) :
  forall a : App E, err a <> None -> err (run a msgs) <> None.
Proof.
  induction msgs as [|msg msgs IH]; intros a He; simpl; [exact He|].
  apply IH. rewrite after_eq, View_err. apply Update_err, He.
Qed.

(** C2, as amended.  A result that carries an error clears the loading
    flag, stores the error and issues no command, whatever the level;
    with the flag clear, the frame is the error text alone.  Entering a
    level again issues its fetch again and sets the loading flag.  The
    stored error is never cleared: it survives every sequence of
    events, and a later result without error leaves the error frame on
    the screen. *)
Theorem fetch_error_screen (a : App E) (e : error) :
  (forall repos, Update a (ReposMsg repos (Some e))
                 = (set_err (Some e) (set_loading false a), CmdNil)) /\
  (forall prs, Update a (PRsMsg prs (Some e))
               = (set_err (Some e) (set_loading false a), CmdNil)) /\
  (forall comments, Update a (CommentsMsg comments (Some e))
                    = (set_err (Some e) (set_loading false a), CmdNil)) /\
  (loading a = false -> err a = Some e ->
   View a = (a, Render [Foreground "9"] ("Error: " ++ e))) /\
  (forall item, state a = StateRepos -> list_SelectedItem (repoList a) = Some item ->
     snd (Update a (KeyMsg "enter")) = CmdFetchPRs (Repo item) /\
     loading (fst (Update a (KeyMsg "enter"))) = true /\
     state (fst (Update a (KeyMsg "enter"))) = StatePRs) /\
  (forall item repo, state a = StatePRs -> currentRepo a = Some repo ->
     list_SelectedItem (prList a) = Some item ->
     snd (Update a (KeyMsg "enter")) = CmdFetchComments repo (PR item) /\
     loading (fst (Update a (KeyMsg "enter"))) = true /\
     state (fst (Update a (KeyMsg "enter"))) = StateComments) /\
  (err a = Some e -> forall msgs, err (run a msgs) <> None) /\
  (err a = Some e -> forall msg, ok_result msg = true ->
     err (fst (Update a msg)) = Some e /\
     snd (View (fst (Update a msg))) = Render [Foreground "9"] ("Error: " ++ e)).
Proof.
  conjuncts; try (intros; reflexivity).
  - intros Hl He. unfold View. now rewrite Hl, He.
  - intros item Hs Hi. unfold Update.
    cbn [key_in existsb String.eqb Ascii.eqb Bool.eqb orb].
    unfold handleEnter. rewrite Hs, Hi. conjuncts; reflexivity.
  - intros item repo Hs Hr Hi. unfold Update.
    cbn [key_in existsb String.eqb Ascii.eqb Bool.eqb orb].
    unfold handleEnter. rewrite Hs, Hi. unfold fetchComments. cbn. rewrite Hr.
    conjuncts; reflexivity.
  - intros He msgs. apply run_err. congruence.
  - intros He msg Hmsg.
    assert (Hst : err (fst (Update a msg)) = Some e /\
                  loading (fst (Update a msg)) = false).
    { destruct msg; try discriminate Hmsg;
        match type of Hmsg with
        | ok_result (_ _ ?o) = true => destruct o; try discriminate Hmsg
        end;
        unfold Update;
        match goal with
        | |- err (fst (updateCurrent ?b ?m)) = _ /\ _ =>
            destruct (updateCurrent_err b m) as [H1 H2]; rewrite H1, H2
        end; (split; [exact He | reflexivity]). }
    destruct Hst as [He' Hl']. split; [exact He'|].
    unfold View. now rewrite Hl', He'.
Qed.

Context {L : EnvLaws E}.

Lemma Update_comments_items (a : App E) (comments : list PullRequestComment) :
  list_Items (commentList (fst (Update a (CommentsMsg comments None))))
  = map (fun c => {| Comment := c |}) (visible (showReplies a) comments).
Proof.
  assert (Hf : filter (fun comment => showReplies a
                                      || (int (c_InReplyTo comment) =? 0)%Z) comments
               = visible (showReplies a) comments).
  { unfold visible. destruct (showReplies a); simpl; [|reflexivity].
    apply filter_all. reflexivity. }
  unfold Update. cbn [set_loading showReplies]. rewrite Hf.
  unfold updateCurrent. cbn [state set_commentList set_loading commentList].
  destruct (state a);
    match goal with
    | |- context [list_Update ?l ?m] =>
        pose proof (list_Items_Update _ l m) as Hu; destruct (list_Update l m);
          cbn in Hu |- *; rewrite ?Hu
    | |- context [viewport_Update ?v ?m] => destruct (viewport_Update v m); cbn
    end; apply list_Items_SetItems.
Qed.

(** C5.  A comments result without error leaves in the list exactly
    the incoming comments that answer no other comment, or all of them
    when replies are shown; the setting is read when the result is
    handled.  So five comments with two replies give three entries,
    and, after the replies key and the same five comments again, five
    entries. *)
Theorem comments_result_is_filtered (a : App E) (comments : list PullRequestComment) :
  list_Items (commentList (fst (Update a (CommentsMsg comments None))))
  = map (fun c => {| Comment := c |}) (visible (showReplies a) comments) /\
  (state a = StateComments -> showReplies a = false ->
   List.length comments = 5%nat ->
   List.length (filter (fun c => negb (int (c_InReplyTo c) =? 0)%Z) comments) = 2%nat ->
   let a1 := after a (CommentsMsg comments None) in
   let a2 := after a1 (KeyMsg "r") in
   let a3 := after a2 (CommentsMsg comments None) in
   List.length (list_Items (commentList a1)) = 3%nat /\
   showReplies a2 = true /\
   snd (Update a1 (KeyMsg "r")) = fetchComments a1 /\
   List.length (list_Items (commentList a3)) = 5%nat).
Proof.
  split; [apply Update_comments_items|].
  intros Hs Hr Hlen Hrep a1 a2 a3.
  assert (Hitems : forall b, list_Items (commentList (after b (CommentsMsg comments None)))
                             = map (fun c => {| Comment := c |})
                                 (visible (showReplies b) comments)).
  { intros b. rewrite after_eq, (proj1 (View_frame _)). apply Update_comments_items. }
  assert (Hs1 : state a1 = StateComments).
  { unfold a1. rewrite after_eq.
    destruct (View_frame (fst (Update a (CommentsMsg comments None))))
      as (_ & _ & -> & _).
    pose proof (proj1 (updateCurrent_nav
                         (set_commentList
                            (list_SetItems
                               (map (fun c => {| Comment := c |})
                                  (filter (fun comment =>
                                             showReplies (set_loading false a)
                                             || (int (c_InReplyTo comment) =? 0)%Z)
                                     comments))
                               (commentList (set_loading false a)))
                            (set_loading false a))
                         (CommentsMsg comments None))) as Hn.
    unfold nav in Hn. injection Hn as Hn _ _ _. exact (eq_trans Hn Hs). }
  assert (Hr1 : showReplies a1 = false).
  { unfold a1. rewrite after_eq.
    destruct (View_frame (fst (Update a (CommentsMsg comments None))))
      as (_ & -> & _).
    unfold Update, updateCurrent. cbn [state set_commentList set_loading].
    rewrite Hs. destruct (list_Update _ _). exact Hr. }
  assert (Hkey : Update a1 (KeyMsg "r") = handleToggleReplies a1).
  { unfold Update. cbn [key_in existsb String.eqb Ascii.eqb Bool.eqb orb].
    now rewrite Hs1. }
  assert (Hr2 : showReplies a2 = true).
  { unfold a2. rewrite after_eq, (proj1 (proj2 (View_frame _))), Hkey.
    cbn. now rewrite Hr1. }
  conjuncts.
  - unfold a1. rewrite Hitems, Hr, length_map. unfold visible.
    pose proof (filter_length (fun c => (int (c_InReplyTo c) =? 0)%Z) comments) as Hfl.
    rewrite Hlen, Hrep in Hfl. lia.
  - exact Hr2.
  - now rewrite Hkey.
  - unfold a3. rewrite Hitems, Hr2, length_map. exact Hlen.
Qed.

Lemma updateCurrent_detail (b : App E) (msg : Msg) :
  state b = StateCommentDetail ->
  fst (updateCurrent b msg)
  = set_commentViewport (fst (viewport_Update (commentViewport b) msg)) b.
Proof.
  unfold updateCurrent. intros ->. now destruct (viewport_Update _ _).
Qed.

Lemma View_detail_size (b : App E) :
  state b = StateCommentDetail -> loading b = false -> err b = None ->
  Width (commentViewport (fst (View b))) = Width (commentViewport b) /\
  Height (commentViewport (fst (View b))) = Z.max (isub (height b) 6) 1.
Proof.
  intros Hs Hl He. unfold View, inDetail. rewrite Hl, He, Hs. cbn [State_eqb].
  destruct (negb (Height (commentViewport b) =? Z.max (isub (height b) 6) 1)%Z) eqn:Hneq;
    cases; fields.
  all: split; [reflexivity |].
  all: lazymatch goal with
       | |- ?x = ?x => reflexivity
       | |- _ => apply negb_false_iff in Hneq; apply Z.eqb_eq in Hneq; exact Hneq
       end.
Qed.

Lemma Update_resize_detail (a : App E) (w h : Z) :
  state a = StateCommentDetail ->
  let a1 := fst (Update a (WindowSizeMsg w h)) in
  state a1 = StateCommentDetail /\ loading a1 = loading a /\
  err a1 = err a /\ height a1 = h /\
  Width (commentViewport a1) = isub w 4 /\
  Height (commentViewport a1)
  = (if nonempty (copyStatus a) then isub (isub h 5) 2 else isub h 5).
Proof.
  intros Hs a1. unfold a1, Update. rewrite updateCurrent_detail by exact Hs.
  fields.
  match goal with
  | |- context [viewport_Update ?v ?m] =>
      destruct (viewport_Update_size v m) as [HW HH]; rewrite HW, HH
  end.
  fields. conjuncts; try reflexivity. exact Hs.
Qed.

(** C3, as amended.  In CommentDetail, handling a resize to [w] by [h]
    sets the viewport width to [w - 4] and its height to [h - 5], or
    [h - 7] while a status message is shown, without a lower bound;
    the frame pass that follows, when it draws the detail layout (not
    loading, no stored error), resets the height to [h - 6] or [1],
    whichever is larger.  Neither value depends on the viewport
    before. *)
Theorem resize_in_detail (a : App E) (w h : Z) :
  state a = StateCommentDetail -> dimension w -> dimension h ->
  let a1 := fst (Update a (WindowSizeMsg w h)) in
  Width (commentViewport a1) = w - 4 /\
  Height (commentViewport a1) = (if nonempty (copyStatus a) then h - 7 else h - 5) /\
  (loading a = false -> err a = None ->
   Width (commentViewport (fst (View a1))) = w - 4 /\
   Height (commentViewport (fst (View a1))) = Z.max (h - 6) 1).
Proof.
  intros Hs Hw Hh a1.
  destruct (Update_resize_detail a w h Hs) as (Hs1 & Hl1 & He1 & Hh1 & HW1 & HH1).
  fold a1 in Hs1, Hl1, He1, Hh1, HW1, HH1. clearbody a1.
  assert (Hdim : forall z k, dimension z -> 0 <= k <= 16 -> isub z k = z - k).
  { apply isub_dimension. }
  assert (H7 : isub (isub h 5) 2 = h - 7).
  { rewrite (Hdim h 5 Hh) by lia.
    rewrite isub_small; [lia|].
    unfold dimension, min_int, max_int in *.
    change (2 ^ 63) with 9223372036854775808 in *. lia. }
  rewrite (Hdim w 4 Hw) in HW1 by lia.
  rewrite H7, (Hdim h 5 Hh) in HH1 by lia.
  conjuncts; [exact HW1 | exact HH1 |].
  intros Hl He.
  destruct (View_detail_size a1 Hs1) as [HW2 HH2]; [congruence | congruence |].
  rewrite HW2, HH2, Hh1, (Hdim h 6 Hh) by lia. split; [exact HW1 | reflexivity].
Qed.

End Core.

(** *** The statements on the executable environment *)

Lemma dimension_small (z : Z) : 0 <= z <= 65535 -> dimension z.
Proof.
  unfold dimension, max_int. change (2 ^ 63) with 9223372036854775808. lia.
Qed.

Lemma navigation_invariant_witness :
  let a := run (E:=sim.simple_env) New sim.to_detail in
  (currentRepo a <> None <-> 1 <= level (state a)) /\
  (currentPR a <> None <-> 2 <= level (state a)) /\
  (currentComment a <> None <-> level (state a) = 3).
Proof.
  exact (proj2 (proj2 (navigation_invariant (E:=sim.simple_env))) sim.to_detail).
Defined.

(** C2, the claim as written fails: after a failed fetch of pull
    requests the user backs out and enters the repository again, which
    issues the fetch again; the result arrives without error and fills
    the list, and the frame is still the error of the first fetch. *)
Lemma error_screen_outlives_refetch :
  let a := run (E:=sim.simple_env) New sim.failed_then_refetched in
  snd (Update (run (E:=sim.simple_env) New
                 (sim.to_repos ++ [KeyMsg "enter"; PRsMsg [] (Some "timeout");
                                   KeyMsg "esc"])%list)
         (KeyMsg "enter")) = CmdFetchPRs sim.bare_repo /\
  state a = StatePRs /\
  loading a = false /\
  list_Items (prList a) = [{| PR := sim.pull 7 |}] /\
  err a = Some "timeout" /\
  snd (View a) = "Error: timeout".
Proof. intros a. subst a. conjuncts; vm_compute; reflexivity. Qed.

Lemma fetch_error_screen_witness :
  View (fst (Update sim.at_prs (PRsMsg [] (Some "timeout"))))
  = (fst (Update sim.at_prs (PRsMsg [] (Some "timeout"))),
     Render (Env:=sim.simple_env) [Foreground "9"] ("Error: " ++ "timeout")) /\
  (snd (Update sim.at_repos (KeyMsg "enter")) = CmdFetchPRs (Repo {| Repo := sim.bare_repo |}) /\
   loading (fst (Update sim.at_repos (KeyMsg "enter"))) = true /\
   state (fst (Update sim.at_repos (KeyMsg "enter"))) = StatePRs) /\
  (forall msgs,
     err (run (fst (Update sim.at_prs (PRsMsg [] (Some "timeout")))) msgs) <> None) /\
  (err (fst (Update (fst (Update sim.at_prs (PRsMsg [] (Some "timeout"))))
              (PRsMsg [sim.pull 7] None))) = Some "timeout" /\
   snd (View (fst (Update (fst (Update sim.at_prs (PRsMsg [] (Some "timeout"))))
                     (PRsMsg [sim.pull 7] None))))
   = Render (Env:=sim.simple_env) [Foreground "9"] ("Error: " ++ "timeout")).
Proof.
  destruct (fetch_error_screen (E:=sim.simple_env)
              (fst (Update sim.at_prs (PRsMsg [] (Some "timeout")))) "timeout")
    as (_ & _ & _ & Hview & _ & _ & Hstay & Hlater).
  destruct (fetch_error_screen (E:=sim.simple_env) sim.at_repos "timeout")
    as (_ & _ & _ & _ & Henter & _).
  conjuncts.
  - apply Hview; reflexivity.
  - apply (Henter {| Repo := sim.bare_repo |}); reflexivity.
  - apply (Henter {| Repo := sim.bare_repo |}); reflexivity.
  - apply (Henter {| Repo := sim.bare_repo |}); reflexivity.
  - apply Hstay. reflexivity.
  - apply (Hlater eq_refl (PRsMsg [sim.pull 7] None)). reflexivity.
  - apply (Hlater eq_refl (PRsMsg [sim.pull 7] None)). reflexivity.
Defined.

(** C3, the claim as written fails: in CommentDetail, with no status
    message, handling a resize to 100 by 30 leaves the viewport 25 lines
    high, not 24, and a resize to 100 by 3 leaves it -2 lines high, not
    1. *)
Lemma resize_handler_height :
  state sim.at_detail = StateCommentDetail /\
  copyStatus sim.at_detail = "" /\
  Height (commentViewport (fst (Update sim.at_detail (WindowSizeMsg 100 30)))) = 25 /\
  Height (commentViewport (fst (Update sim.at_detail (WindowSizeMsg 100 30))))
  <> Z.max (30 - 6) 1 /\
  Height (commentViewport (fst (Update sim.at_detail (WindowSizeMsg 100 3)))) = -2 /\
  Height (commentViewport (fst (Update sim.at_detail (WindowSizeMsg 100 3))))
  <> Z.max (3 - 6) 1.
Proof.
  conjuncts; try reflexivity; intros H; vm_compute in H; discriminate H.
Qed.

Lemma resize_in_detail_witness :
  let a1 := fst (Update sim.at_detail (WindowSizeMsg 100 30)) in
  Width (commentViewport a1) = 100 - 4 /\
  Height (commentViewport a1)
  = (if nonempty (copyStatus sim.at_detail) then 30 - 7 else 30 - 5) /\
  (loading sim.at_detail = false -> err sim.at_detail = None ->
   Width (commentViewport (fst (View a1))) = 100 - 4 /\
   Height (commentViewport (fst (View a1))) = Z.max (30 - 6) 1).
Proof.
  apply (resize_in_detail (E:=sim.simple_env) (L:=simple_env_laws) sim.at_detail 100 30).
  - reflexivity.
  - apply dimension_small. lia.
  - apply dimension_small. lia.
Defined.


Lemma back_at_root_is_noop_witness :
  Update sim.at_repos (KeyMsg "esc") = (sim.at_repos, CmdNil) /\
  snd (Update sim.at_repos (KeyMsg "esc")) <> Quit /\
  after sim.at_repos (KeyMsg "esc") = sim.at_repos.
Proof.
  apply (back_at_root_is_noop (E:=sim.simple_env) sim.at_repos); reflexivity.
Defined.

Lemma comments_result_is_filtered_witness :
  let a1 := after sim.at_comments (CommentsMsg sim.five_comments None) in
  let a2 := after a1 (KeyMsg "r") in
  let a3 := after a2 (CommentsMsg sim.five_comments None) in
  List.length (list_Items (commentList a1)) = 3%nat /\
  showReplies a2 = true /\
  snd (Update a1 (KeyMsg "r")) = fetchComments a1 /\
  List.length (list_Items (commentList a3)) = 5%nat.
Proof.
  apply (proj2 (comments_result_is_filtered (E:=sim.simple_env) (L:=simple_env_laws)
                  sim.at_comments sim.five_comments)); reflexivity.
Defined.

End NavFacts.

(* ================================================================= *)
(** ** Titles of comments *)

Module UiExtra.

Import github ui terms.
Open Scope string_scope.

Lemma length_app (s t : string) :
  String.length (s ++ t) = (String.length s + String.length t)%nat.
Proof. induction s as [|c s IH]; simpl; [reflexivity | now rewrite IH]. Qed.

Lemma length_prefix (n : nat) :
  forall s : string, (n <= String.length s)%nat ->
  String.length (String.substring 0 n s) = n.
Proof.
  induction n as [|n IH]; intros s Hn.
  - now destruct s.
  - destruct s as [|c s]; simpl in *; [lia|]. rewrite IH; lia.
Qed.

Lemma clip_bounded (line : string) : (String.length (clip line) <= 80)%nat.
Proof.
  unfold clip. destruct (80 <? Z.of_nat (String.length line))%Z eqn:Hlen.
  - apply Z.ltb_lt in Hlen. rewrite length_app, length_prefix; simpl; lia.
  - apply Z.ltb_ge in Hlen. lia.
Qed.

Section Titles.

Variable TrimSpace : string -> string.
Variable stripHeading : string -> string.

Lemma first_title_blank (lines : list string) :
  Forall (fun l => TrimSpace l = "") lines ->
  first_title TrimSpace stripHeading lines = None.
Proof.
  induction 1 as [|l lines Hl _ IH]; simpl; [reflexivity|].
  unfold nonempty. now rewrite Hl.
Qed.

Lemma first_title_nonblank (pre : list string) (line : string) (post : list string) :
  Forall (fun l => TrimSpace l = "") pre -> TrimSpace line <> "" ->
  first_title TrimSpace stripHeading (pre ++ line :: post)
  = Some (clip (stripHeading (TrimSpace line))).
Proof.
  intros Hpre Hline. induction Hpre as [|l pre Hl _ IH]; simpl.
  - unfold nonempty. destruct (String.eqb_spec (TrimSpace line) ""); [contradiction|].
    reflexivity.
  - unfold nonempty at 1. rewrite Hl. simpl. exact IH.
Qed.

Lemma first_title_clipped (lines : list string) :
  first_title TrimSpace stripHeading lines = None \/
  exists line, In line lines /\
    first_title TrimSpace stripHeading lines = Some (clip (stripHeading (TrimSpace line))).
Proof.
  induction lines as [|l lines IH]; simpl; [now left|].
  destruct (nonempty (TrimSpace l)).
  - right. exists l. split; [now left | reflexivity].
  - destruct IH as [IH | [line [Hin IH]]]; [now left|].
    right. exists line. split; [now right | exact IH].
Qed.

(** X16.  The title of a comment in the list is never longer than 80
    bytes: a longer first line is cut to 77 bytes and three dots, and
    the placeholder for a blank body is shorter. *)
Theorem CommentItem_Title_bounded (i : CommentItem) :
  (String.length (CommentItem_Title TrimSpace stripHeading i) <= 80)%nat.
Proof.
  unfold CommentItem_Title.
  destruct (first_title_clipped
              (gofmt.Split (TrimSpace (str (c_Body (Comment i)))) "010"%char))
    as [H | [line [_ H]]]; rewrite H.
  - simpl. lia.
  - apply clip_bounded.
Qed.

(** X17.  The title of a comment is taken from the first line of the
    trimmed body that is not blank: that line trimmed, without its
    heading mark, cut to 80 bytes; lines after it play no part.  When
    every line is blank the title is the placeholder [Empty comment]. *)
Theorem CommentItem_Title_first_nonblank (i : CommentItem) :
  let lines := gofmt.Split (TrimSpace (str (c_Body (Comment i)))) "010"%char in
  (forall pre line post,
     lines = (pre ++ line :: post)%list ->
     Forall (fun l => TrimSpace l = "") pre -> TrimSpace line <> "" ->
     CommentItem_Title TrimSpace stripHeading i = clip (stripHeading (TrimSpace line))) /\
  (Forall (fun l => TrimSpace l = "") lines ->
   CommentItem_Title TrimSpace stripHeading i = "Empty comment").
Proof.
  intros lines. unfold CommentItem_Title. fold lines. split.
  - intros pre line post -> Hpre Hline. now rewrite first_title_nonblank.
  - intros Hall. now rewrite first_title_blank.
Qed.

End Titles.

(** A body whose first line is a bare heading mark has the empty title:
    neither the placeholder nor the text of the second line. *)
Lemma CommentItem_Title_first_nonblank_witness :
  CommentItem_Title samples.trim_space samples.strip_heading
    {| Comment := samples.bare_heading |} = "" /\
  CommentItem_Title samples.trim_space samples.strip_heading
    {| Comment := samples.with_body "  " |} = "Empty comment".
Proof.
  split.
  - apply (proj1 (CommentItem_Title_first_nonblank samples.trim_space
                    samples.strip_heading {| Comment := samples.bare_heading |})
             [] "#" ["Please rename this"]).
    + reflexivity.
    + constructor.
    + vm_compute. discriminate.
  - apply (proj2 (CommentItem_Title_first_nonblank samples.trim_space
                    samples.strip_heading {| Comment := samples.with_body "  " |})).
    vm_compute. repeat constructor.
Defined.

End UiExtra.

(* ================================================================= *)
(** ** The comment detail *)

Module DetailExtra.

Import github ui app detail terms.
Open Scope string_scope.

(** Two instants of one minute have the same date and the same clock
    time to the minute. *)
Lemma Format_minute (t u : time.Time) :
  u / minute = t / minute ->
  time.Format u "2006-01-02 15:04" = time.Format t "2006-01-02 15:04".
Proof.
  unfold minute. intros Hm.
  assert (Hs : time.unix_seconds u / 60 = time.unix_seconds t / 60).
  { unfold time.unix_seconds, time.nanos_per_second.
    rewrite !Z.div_div by lia. exact Hm. }
  unfold time.Format. simpl.
  unfold time.date_string, time.clock_string, time.seconds_per_day.
  replace (time.unix_seconds u / 86400) with (time.unix_seconds t / 86400)
    by (generalize dependent (time.unix_seconds u);
        generalize (time.unix_seconds t); intros; Z.to_euclidean_division_equations; lia).
  replace (time.unix_seconds u mod 86400 / 3600)
    with (time.unix_seconds t mod 86400 / 3600)
    by (generalize dependent (time.unix_seconds u);
        generalize (time.unix_seconds t); intros; Z.to_euclidean_division_equations; lia).
  replace ((time.unix_seconds u mod 86400) mod 3600 / 60)
    with ((time.unix_seconds t mod 86400) mod 3600 / 60)
    by (generalize dependent (time.unix_seconds u);
        generalize (time.unix_seconds t); intros; Z.to_euclidean_division_equations; lia).
  reflexivity.
Qed.

(** X18.  The detail text of a comment cannot be built when the comment
    carries an update time and no creation time: line 611 dereferences
    the nil [CreatedAt] and the program panics.  In every other case
    the author and time lines are produced. *)
Theorem commentMeta_nil_created (c : PullRequestComment) :
  commentMeta c = None <-> (c_UpdatedAt c <> None /\ c_CreatedAt c = None).
Proof.
  unfold commentMeta.
  destruct (c_UpdatedAt c) as [u|], (c_CreatedAt c) as [t|]; simpl; split;
    try discriminate; try reflexivity.
  - intros [_ H]. discriminate H.
  - intros _. split; [discriminate | reflexivity].
  - intros [H _]. now contradiction H.
  - intros [H _]. now contradiction H.
Qed.

(** X19.  The list and the detail view decide differently whether a
    comment was edited.  The list compares the two times as printed, to
    the minute; the detail view compares the instants.  Whenever the
    list shows the update time the detail view shows it too; a comment
    edited within the minute of its creation is unmarked in the list and
    marked in the detail view, with the time it was created at. *)
Theorem updated_marker_list_and_detail (c : PullRequestComment) (t u : time.Time) :
  c_CreatedAt c = Some t -> c_UpdatedAt c = Some u ->
  let created := time.Format t "2006-01-02 15:04" in
  let updated := time.Format u "2006-01-02 15:04" in
  (updated <> created ->
   CommentItem_timeInfo {| Comment := c |} = created ++ " (updated " ++ updated ++ ")" /\
   commentMeta c
   = Some ("By: " ++ GetLogin (c_User c) ++ newline ++ "Created: " ++ created
             ++ " (updated " ++ updated ++ ")")) /\
  (u <> t -> u / minute = t / minute ->
   CommentItem_timeInfo {| Comment := c |} = created /\
   commentMeta c
   = Some ("By: " ++ GetLogin (c_User c) ++ newline ++ "Created: " ++ created
             ++ " (updated " ++ created ++ ")")) /\
  (u = t ->
   CommentItem_timeInfo {| Comment := c |} = created /\
   commentMeta c
   = Some ("By: " ++ GetLogin (c_User c) ++ newline ++ "Created: " ++ created)).
Proof.
  intros Hc Hu created updated.
  unfold CommentItem_timeInfo, commentMeta, time.Equal. cbn [Comment].
  rewrite Hc, Hu. fold created updated. conjuncts.
  - intros Hneq. destruct (String.eqb_spec updated created) as [Heq|_]; [contradiction|].
    destruct (Z.eqb_spec u t) as [Heq|_].
    + subst u. now contradiction Hneq.
    + simpl. split; reflexivity.
  - intros Hneq Hmin. pose proof (Format_minute t u Hmin) as Hf.
    fold created updated in Hf. rewrite Hf, String.eqb_refl.
    destruct (Z.eqb_spec u t) as [Heq|_]; [contradiction|]. simpl. split; reflexivity.
  - intros ->. subst updated. fold created. rewrite String.eqb_refl, Z.eqb_refl.
    simpl. rewrite UiFacts.append_empty_r. split; reflexivity.
Qed.

Section FileContext.

Context {E : Env}.

(** X20.  The file line of the detail view names the lines of a comment
    by the texts that the prompt generator puts into the prompt: the
    line range after the label [Line:] or [Lines:], the original range
    after [Original Line:] or [Original Lines:], each present exactly
    when the generator's text for it is not empty. *)
Theorem renderFileContext_ranges (a : App E) (c : PullRequestComment) :
  currentComment a = Some c -> str (c_Path c) <> "" ->
  let d := prompt.buildTemplateData_Comment c in
  renderFileContext a (str (c_Path c)) (int (c_Line c)) (int (c_OriginalLine c))
  = Render infoStyle
      (gofmt.Join
         ([(folder_mark ++ str (c_Path c))%string]
          ++ (if nonempty (prompt.LineRange d)
              then [(line_label (multi_line (prompt.StartLine d) (prompt.Line d))
                       ++ prompt.LineRange d)%string]
              else [])
          ++ (if nonempty (prompt.OriginalLineRange d)
              then [(original_label
                       (multi_line (prompt.OriginalStartLine d) (prompt.OriginalLine d))
                       ++ prompt.OriginalLineRange d)%string]
              else []))%list bullet).
Proof.
  intros Hc Hp d. unfold renderFileContext.
  destruct (String.eqb_spec (str (c_Path c)) "") as [Heq|_]; [contradiction|].
  rewrite Hc. unfold GetStartLine, GetOriginalStartLine.
  subst d. unfold prompt.buildTemplateData_Comment, multi_line.
  cbn [prompt.LineRange prompt.OriginalLineRange prompt.StartLine prompt.Line
       prompt.OriginalStartLine prompt.OriginalLine].
  destruct (int (c_Line c) =? 0)%Z, (int (c_StartLine c) =? 0)%Z,
    (int (c_StartLine c) =? int (c_Line c))%Z,
    (int (c_OriginalLine c) =? 0)%Z,
    (int (c_OriginalLine c) =? int (c_Line c))%Z,
    (int (c_OriginalStartLine c) =? 0)%Z,
    (int (c_OriginalStartLine c) =? int (c_OriginalLine c))%Z;
    reflexivity.
Qed.

End FileContext.

Lemma commentMeta_nil_created_witness :
  commentMeta samples.never_created = None /\
  CommentItem_Description {| Comment := samples.never_created |} = "by octo • ".
Proof.
  split; [|reflexivity].
  apply (proj2 (commentMeta_nil_created samples.never_created)).
  split; [discriminate | reflexivity].
Defined.

Lemma updated_marker_list_and_detail_witness :
  CommentItem_timeInfo {| Comment := samples.edited 30000000000 |} = "2024-01-15 10:00" /\
  commentMeta (samples.edited 30000000000)
  = Some ("By: octo" ++ newline ++ "Created: 2024-01-15 10:00 (updated 2024-01-15 10:00)").
Proof.
  apply (proj1 (proj2 (updated_marker_list_and_detail (samples.edited 30000000000)
                         1705312800000000000 1705312830000000000 eq_refl eq_refl)));
    [discriminate | reflexivity].
Defined.

Lemma renderFileContext_ranges_witness :
  renderFileContext samples.at_moved "main.go" 12 4
  = folder_mark ++ "main.go" ++ bullet ++ line_label true ++ "L10-12"
      ++ bullet ++ original_label true ++ "L3-4".
Proof.
  apply (renderFileContext_ranges (E:=sim.simple_env) samples.at_moved samples.moved).
  - reflexivity.
  - discriminate.
Defined.

End DetailExtra.

(* ================================================================= *)
(** ** The repositories of the user and of the organizations *)

Module FetchExtra.

Import github tea ghclient terms.

Lemma Permutation_filter {A : Type} (p : A -> bool) (l l' : list A) :
  Permutation l l' -> Permutation (filter p l) (filter p l').
Proof.
  induction 1 as [|x l l' _ IH|x y l|l l' l'' _ IH1 _ IH2]; simpl.
  - apply perm_nil.
  - destruct (p x); [apply perm_skip|]; exact IH.
  - destruct (p x), (p y); try apply Permutation_refl. apply perm_swap.
  - eapply perm_trans; eassumption.
Qed.

Lemma StronglySorted_filter {A : Type} (R : A -> A -> Prop) (p : A -> bool) (l : list A) :
  StronglySorted R l -> StronglySorted R (filter p l).
Proof.
  induction 1 as [|x l _ IH Hx]; simpl; [constructor|].
  destruct (p x); [|exact IH].
  constructor; [exact IH|].
  rewrite Forall_forall in *. intros y Hy. apply Hx.
  apply filter_In in Hy. tauto.
Qed.

Lemma StronglySorted_map {A B : Type} (R : A -> A -> Prop) (f : B -> A) (l : list B) :
  StronglySorted R (map f l) -> StronglySorted (fun x y => R (f x) (f y)) l.
Proof.
  induction l as [|x l IH]; simpl; intros Hs; [constructor|].
  apply StronglySorted_inv in Hs. destruct Hs as [Hs Hx].
  constructor; [apply IH, Hs|].
  rewrite Forall_forall in *. intros y Hy. apply Hx, in_map, Hy.
Qed.

Section Repos.

Context {V : Service}.

Lemma appendOrgRepos_flat (orgs : list Organization) :
  forall allRepos,
    appendOrgRepos allRepos orgs = (allRepos ++ flat_map org_repos orgs)%list.
Proof.
  induction orgs as [|org orgs IH]; intros allRepos; simpl.
  - now rewrite app_nil_r.
  - unfold org_repos at 1.
    destruct (Repositories_ListByOrg (str (org_Login org))) as [e|orgRepos].
    + apply IH.
    + rewrite IH. now rewrite app_assoc.
Qed.

(** X12.  Only a failure of the user's own listing fails the fetch of
    the repositories, and then the result carries no repository.  A
    failure to list the organizations, or the repositories of one
    organization, is dropped without a trace: the result carries no
    error, the user's repositories in the order of the answer, followed
    by the repositories of each organization that could be listed, in
    the order of the organizations. *)
Theorem FetchRepos_result :
  (forall e, Repositories_List = inl e -> FetchRepos = ReposMsg [] (Some e)) /\
  (forall userRepos, Repositories_List = inr userRepos ->
     (forall e, Organizations_List = inl e -> FetchRepos = ReposMsg userRepos None) /\
     (forall orgs, Organizations_List = inr orgs ->
        FetchRepos = ReposMsg (userRepos ++ flat_map org_repos orgs) None)).
Proof.
  unfold FetchRepos. split.
  - intros e ->. reflexivity.
  - intros userRepos ->. split.
    + intros e ->. reflexivity.
    + intros orgs ->. now rewrite appendOrgRepos_flat.
Qed.

(** X13.  The result is not freed of duplicates: a repository that the
    user's own listing and the listing of one of the user's
    organizations both hold stands twice in the result. *)
Theorem FetchRepos_duplicates (userRepos : list Repository) (orgs : list Organization)
    (org : Organization) (orgRepos : list Repository) (r : Repository) :
  Repositories_List = inr userRepos -> Organizations_List = inr orgs ->
  In org orgs -> Repositories_ListByOrg (str (org_Login org)) = inr orgRepos ->
  In r userRepos -> In r orgRepos ->
  exists l1 l2 l3, FetchRepos = ReposMsg (l1 ++ r :: l2 ++ r :: l3) None.
Proof.
  intros Hu Ho Horg Hl Hru Hro.
  unfold FetchRepos. rewrite Hu, Ho, appendOrgRepos_flat.
  destruct (in_split _ _ Hru) as (u1 & u2 & ->).
  assert (Hin : In r (flat_map org_repos orgs)).
  { apply in_flat_map. exists org. split; [exact Horg|].
    unfold org_repos. now rewrite Hl. }
  destruct (in_split _ _ Hin) as (f1 & f2 & ->).
  exists u1, (u2 ++ f1)%list, f2.
  rewrite <- !app_assoc. reflexivity.
Qed.

End Repos.

Lemma FetchRepos_result_witness :
  @FetchRepos sim.sample_service = ReposMsg [sim.bare_repo] None /\
  @FetchRepos samples.org_service
  = ReposMsg ([sim.bare_repo]
              ++ flat_map (org_repos (V:=samples.org_service))
                   [samples.closed_org; samples.acme]) None.
Proof.
  split.
  - apply (proj1 (proj2 (@FetchRepos_result sim.sample_service) [sim.bare_repo] eq_refl)
             "forbidden" eq_refl).
  - apply (proj2 (proj2 (@FetchRepos_result samples.org_service) [sim.bare_repo] eq_refl)
             [samples.closed_org; samples.acme] eq_refl).
Defined.

Lemma FetchRepos_duplicates_witness :
  exists l1 l2 l3,
    @FetchRepos samples.org_service
    = ReposMsg (l1 ++ sim.bare_repo :: l2 ++ sim.bare_repo :: l3) None.
Proof.
  apply (@FetchRepos_duplicates samples.org_service [sim.bare_repo]
           [samples.closed_org; samples.acme] samples.acme [sim.bare_repo] sim.bare_repo);
    try reflexivity; simpl; tauto.
Defined.

End FetchExtra.

(* ================================================================= *)
(** ** Keys, results and frames *)

Module NavExtra.

Import github tea ui app spec terms widgets.
Open Scope string_scope.

(** Reads a field of the application through the assignments in front
    of it. *)
Ltac read_fields :=
  cbn [fst snd state repoList prList commentList commentViewport currentRepo
       currentPR currentComment loading err width height copyStatus showReplies
       useSimplePrompt set_state set_repoList set_prList set_commentList
       set_commentViewport set_currentRepo set_currentPR set_currentComment
       set_loading set_err set_width set_height set_copyStatus set_showReplies
       set_useSimplePrompt Width Height YOffset lines set_Width set_Height].

(** Case analysis on every test in the goal. *)
Ltac split_cases :=
  repeat match goal with
         | |- context [match ?x with _ => _ end] => destruct x eqn:?
         end.

Lemma key_in_single (k x : string) : key_in k [x] = true -> k = x.
Proof.
  unfold key_in. simpl. rewrite orb_false_r. apply String.eqb_eq.
Qed.

Section Handlers.

Context {E : Env}.

Lemma inDetail_true (a : App E) : inDetail a = true -> state a = StateCommentDetail.
Proof. unfold inDetail. now destruct (state a). Qed.

Lemma atComments_true (a : App E) :
  State_eqb (state a) StateComments = true -> state a = StateComments.
Proof. now destruct (state a). Qed.

(** The keys with a handler of their own. *)
Lemma Update_enter (a : App E) : Update a (KeyMsg "enter") = handleEnter a.
Proof. reflexivity. Qed.

Lemma Update_c (a : App E) :
  Update a (KeyMsg "c")
  = if inDetail a then handleCopyPrompt a else updateCurrent a (KeyMsg "c").
Proof. reflexivity. Qed.

Lemma Update_r (a : App E) :
  Update a (KeyMsg "r")
  = if State_eqb (state a) StateComments then handleToggleReplies a
    else updateCurrent a (KeyMsg "r").
Proof. reflexivity. Qed.

Lemma New_inv : nav_inv (New (E:=E)).
Proof.
  unfold nav_inv. simpl. conjuncts; split; intros H; try lia; now contradiction H.
Qed.

Lemma reachable_inv (msgs : list Msg) : nav_inv (run (E:=E) New msgs).
Proof. apply NavFacts.run_inv, New_inv. Qed.

(** What the invariant gives at each level. *)
Lemma inv_selection (a : App E) :
  nav_inv a ->
  (1 <= level (state a) -> exists repo, currentRepo a = Some repo) /\
  (2 <= level (state a) -> exists pr, currentPR a = Some pr) /\
  (level (state a) = 3 -> exists comment, currentComment a = Some comment).
Proof.
  intros (Hr & Hp & Hc). conjuncts; intros Hl.
  - destruct (currentRepo a) as [repo|]; [now exists repo|].
    apply Hr in Hl. now contradiction Hl.
  - destruct (currentPR a) as [pr|]; [now exists pr|].
    apply Hp in Hl. now contradiction Hl.
  - destruct (currentComment a) as [comment|]; [now exists comment|].
    apply Hc in Hl. now contradiction Hl.
Qed.

(** X1.  In every state that events lead to from the start, Enter on a
    selected repository or pull request sets the loading flag, moves one
    level down and issues the fetch for the selected item: the pull
    requests of the selected repository, the comments of the selected
    pull request in the current repository.  The fetch is never left
    out for want of a current repository. *)
Theorem enter_issues_fetch (msgs : list Msg) :
  let a := run (E:=E) New msgs in
  (forall item, state a = StateRepos -> list_SelectedItem (repoList a) = Some item ->
     Update a (KeyMsg "enter")
     = (set_loading true (set_state StatePRs (set_currentRepo (Some (Repo item)) a)),
        CmdFetchPRs (Repo item))) /\
  (forall item, state a = StatePRs -> list_SelectedItem (prList a) = Some item ->
     exists repo,
       currentRepo a = Some repo /\
       Update a (KeyMsg "enter")
       = (set_loading true (set_state StateComments (set_currentPR (Some (PR item)) a)),
          CmdFetchComments repo (PR item))).
Proof.
  intros a. pose proof (reachable_inv msgs) as Hinv. fold a in Hinv. clearbody a.
  split; intros item Hs Hsel; rewrite Update_enter; unfold handleEnter; rewrite Hs, Hsel.
  - reflexivity.
  - destruct (proj1 (inv_selection a Hinv)) as [repo Hrepo]; [rewrite Hs; simpl; lia|].
    exists repo. split; [exact Hrepo|].
    unfold fetchComments. read_fields. now rewrite Hrepo.
Qed.

(** X2.  Enter where there is nothing to enter changes nothing and
    issues no command: on a list without a selected item (an empty
    list) the level, the selection and the flags stay as they are, and
    so does the application after the frame that follows. *)
Theorem enter_without_selection (a : App E) :
  nothing_selected a ->
  Update a (KeyMsg "enter") = (a, CmdNil) /\
  (state a <> StateCommentDetail -> after a (KeyMsg "enter") = a).
Proof.
  intros Hn.
  assert (Hu : Update a (KeyMsg "enter") = (a, CmdNil)).
  { rewrite Update_enter. unfold handleEnter, nothing_selected in *.
    destruct (state a); try rewrite Hn; reflexivity. }
  split; [exact Hu|].
  intros Hs. rewrite NavFacts.after_eq, Hu. now apply NavFacts.View_keeps.
Qed.

(** X3.  In every comment detail that events lead to from the start,
    the copy key finds its context: the repository, the pull request and
    the comment are all set, the prompt of the current mode goes to the
    clipboard, the status line reports the outcome of the copy, and a
    tick of three seconds is issued to clear it.  The status [Error:
    Missing context for prompt generation] cannot appear. *)
Theorem copy_in_detail (msgs : list Msg) :
  let a := run (E:=E) New msgs in
  state a = StateCommentDetail ->
  exists repo pr comment,
    currentRepo a = Some repo /\ currentPR a = Some pr /\
    currentComment a = Some comment /\
    let promptText :=
      if useSimplePrompt a then GenerateSimplePrompt repo pr comment
      else GenerateFullPrompt repo pr comment in
    Update a (KeyMsg "c")
    = (set_copyStatus
         (match clipboard_Copy promptText with
          | Some e => "Copy failed: " ++ e
          | None => copied (if useSimplePrompt a then "Simple" else "Full")
          end) a,
       Tick 3 clearCopyStatusMsg).
Proof.
  intros a Hs. pose proof (reachable_inv msgs) as Hinv. fold a in Hinv. clearbody a.
  destruct (inv_selection a Hinv) as (Hr & Hp & Hc). rewrite Hs in Hr, Hp, Hc.
  destruct Hr as [repo Hrepo]; [simpl; lia|].
  destruct Hp as [pr Hpr]; [simpl; lia|].
  destruct Hc as [comment Hcomment]; [reflexivity|].
  exists repo, pr, comment. conjuncts; try assumption.
  rewrite Update_c. unfold inDetail. rewrite Hs. cbn [State_eqb].
  unfold handleCopyPrompt. rewrite Hrepo, Hpr, Hcomment.
  destruct (useSimplePrompt a);
    match goal with
    | |- context [clipboard_Copy ?t] => destruct (clipboard_Copy t)
    end; reflexivity.
Qed.

(** The frame that follows an event leaves everything but the height of
    the viewport as it is. *)
Lemma View_detail_eq (a : App E) :
  state a = StateCommentDetail -> loading a = false -> err a = None ->
  fst (View a)
  = if negb (Height (commentViewport a) =? Z.max (isub (height a) 6) 1)%Z
    then set_commentViewport
           (set_Height (Z.max (isub (height a) 6) 1) (commentViewport a)) a
    else a.
Proof.
  intros Hs Hl He. unfold View, inDetail. rewrite Hl, He, Hs. cbn [State_eqb].
  destruct (negb (Height (commentViewport a) =? Z.max (isub (height a) 6) 1)%Z);
    split_cases; reflexivity.
Qed.

Lemma View_blank (a : App E) :
  loading a = true \/ err a <> None -> fst (View a) = a.
Proof.
  unfold View. intros [Hl | He].
  - now rewrite Hl.
  - destruct (loading a); [reflexivity|]. destruct (err a); [reflexivity|].
    now contradiction He.
Qed.

(** X7.  Rendering changes the application in one place only, the
    height of the viewport of the detail view, and rendering again
    changes nothing more: the runtime may ask for the frame any number
    of times between two events. *)
Theorem View_idempotent (a : App E) :
  (fst (View a) = a \/
   fst (View a)
   = set_commentViewport
       (set_Height (Z.max (isub (height a) 6) 1) (commentViewport a)) a) /\
  fst (View (fst (View a))) = fst (View a).
Proof.
  destruct (loading a) eqn:Hl.
  { assert (Hb : fst (View a) = a) by (apply View_blank; now left).
    rewrite !Hb. auto. }
  destruct (err a) eqn:He.
  { assert (Hb : fst (View a) = a) by (apply View_blank; right; congruence).
    rewrite !Hb. auto. }
  destruct (state a) eqn:Hs;
    try (assert (Hk : fst (View a) = a) by (apply NavFacts.View_keeps; congruence);
         rewrite !Hk; now auto).
  rewrite (View_detail_eq a Hs Hl He).
  destruct (negb (Height (commentViewport a) =? Z.max (isub (height a) 6) 1)%Z) eqn:Hneq.
  - split; [now right|].
    rewrite View_detail_eq by (read_fields; assumption). read_fields.
    now rewrite Z.eqb_refl.
  - split; [now left|].
    rewrite (View_detail_eq a Hs Hl He). now rewrite Hneq.
Qed.

(** X8.  The frame lags behind the height.  The terminal height held by
    the application has no part in the frame that [View] returns: the
    viewport is drawn before its height is corrected, so the frame of a
    turn shows the viewport at the height the event handler left, and
    the corrected height shows in the next frame only. *)
Theorem frame_lags_height (a : App E) :
  (forall h, snd (View (set_height h a)) = snd (View a)) /\
  (state a = StateCommentDetail -> loading a = false -> err a = None ->
   snd (View (fst (View a)))
   = snd (View (set_commentViewport
                  (set_Height (Z.max (isub (height a) 6) 1) (commentViewport a)) a))).
Proof.
  split.
  - intros h. unfold View, inDetail, buildPRInfo, repoName, prNumber.
    read_fields.
    destruct (negb (Height (commentViewport a) =? Z.max (isub h 6) 1)%Z),
      (negb (Height (commentViewport a) =? Z.max (isub (height a) 6) 1)%Z);
      read_fields; split_cases; reflexivity.
  - intros Hs Hl He. rewrite (View_detail_eq a Hs Hl He).
    destruct (negb (Height (commentViewport a) =? Z.max (isub (height a) 6) 1)%Z) eqn:Hneq;
      [reflexivity|].
    apply negb_false_iff, Z.eqb_eq in Hneq. rewrite <- Hneq.
    destruct a as [st rl pl cl [vw vh vy vl] cr cp cc lo er wi he cs sr us].
    reflexivity.
Qed.

(** *** Enter and Back *)

Lemma after_nav (a : App E) (msg : Msg) : nav (after a msg) = nav (fst (Update a msg)).
Proof. rewrite NavFacts.after_eq. apply NavFacts.View_nav. Qed.

Lemma View_lists (a : App E) :
  repoList (fst (View a)) = repoList a /\ prList (fst (View a)) = prList a /\
  commentList (fst (View a)) = commentList a.
Proof. unfold View. split_cases; conjuncts; reflexivity. Qed.

Lemma Update_esc_back (b : App E) :
  match state b with
  | StateRepos => list_SettingFilter (repoList b) = false
  | StatePRs => list_SettingFilter (prList b) = false
  | StateComments => list_SettingFilter (commentList b) = false
  | StateCommentDetail => True
  end ->
  Update b (KeyMsg "esc") = handleBack b.
Proof.
  intros Hf. change (Update b (KeyMsg "esc"))
    with (match state b with
          | StateRepos =>
              if list_SettingFilter (repoList b) then
                let '(l, cmd) := list_Update (repoList b) (KeyMsg "esc") in
                (set_repoList l b, cmd)
              else handleBack b
          | StatePRs =>
              if list_SettingFilter (prList b) then
                let '(l, cmd) := list_Update (prList b) (KeyMsg "esc") in
                (set_prList l b, cmd)
              else handleBack b
          | StateComments =>
              if list_SettingFilter (commentList b) then
                let '(l, cmd) := list_Update (commentList b) (KeyMsg "esc") in
                (set_commentList l b, cmd)
              else handleBack b
          | StateCommentDetail => handleBack b
          end).
  destruct (state b); try rewrite Hf; reflexivity.
Qed.

Lemma handleEnter_lists (a : App E) :
  repoList (fst (handleEnter a)) = repoList a /\
  prList (fst (handleEnter a)) = prList a /\
  commentList (fst (handleEnter a)) = commentList a.
Proof. unfold handleEnter. split_cases; conjuncts; reflexivity. Qed.

Lemma handleBack_nav_congr (b b' : App E) :
  nav b = nav b' -> nav (fst (handleBack b)) = nav (fst (handleBack b')).
Proof.
  unfold nav, handleBack. intros H. injection H as Hs Hr Hp Hc. rewrite Hs.
  destruct (state b') eqn:Hs'; read_fields; congruence.
Qed.

Lemma back_after_enter (a : App E) :
  nav_inv a -> can_enter a ->
  level (state (fst (handleEnter a))) = level (state a) + 1 /\
  nav (fst (handleBack (fst (handleEnter a)))) = nav a.
Proof.
  intros (Ir & Ip & Ic) Hc. unfold can_enter in Hc. unfold nav, handleEnter.
  destruct (state a) eqn:Hst; cbn [level] in *.
  - destruct Hc as [Hsel _].
    destruct (list_SelectedItem (repoList a)); [|now contradiction Hsel].
    split; [reflexivity|]. unfold handleBack. read_fields.
    destruct (currentRepo a); [|reflexivity].
    assert (1 <= 0) by (apply Ir; discriminate). lia.
  - destruct Hc as [Hsel _].
    destruct (list_SelectedItem (prList a)); [|now contradiction Hsel].
    split; [reflexivity|]. unfold handleBack. read_fields.
    destruct (currentPR a); [|reflexivity].
    assert (2 <= 1) by (apply Ip; discriminate). lia.
  - destruct (list_SelectedItem (commentList a)); [|now contradiction Hc].
    split; [reflexivity|]. unfold handleBack. read_fields.
    destruct (currentComment a); [|reflexivity].
    assert (2 = 3) by (apply Ic; discriminate). lia.
  - contradiction.
Qed.


(** *** What an event can change *)

Lemma Update_useSimplePrompt (a : App E) (msg : Msg) :
  useSimplePrompt (fst (Update a msg)) = useSimplePrompt a \/
  (msg = KeyMsg "t" /\ state a = StateCommentDetail).
Proof.
  unfold Update. split_cases;
    lazymatch goal with
    | |- useSimplePrompt (fst (handleTogglePromptMode _)) = _ \/ _ =>
        right; split; [f_equal; apply key_in_single; assumption
                      | apply inDetail_true; assumption]
    | |- _ =>
        left;
        unfold handleBack, handleEnter, handleCopyPrompt, handleToggleReplies,
          updateCurrent;
        split_cases; reflexivity
    end.
Qed.

Lemma Update_showReplies (a : App E) (msg : Msg) :
  showReplies (fst (Update a msg)) = showReplies a \/
  (msg = KeyMsg "r" /\ state a = StateComments).
Proof.
  unfold Update. split_cases;
    lazymatch goal with
    | |- showReplies (fst (handleToggleReplies _)) = _ \/ _ =>
        right; split; [f_equal; apply key_in_single; assumption
                      | apply atComments_true; assumption]
    | |- _ =>
        left;
        unfold handleBack, handleEnter, handleCopyPrompt, handleTogglePromptMode,
          updateCurrent;
        split_cases; reflexivity
    end.
Qed.

Lemma Update_copyStatus (a : App E) (msg : Msg) :
  copyStatus (fst (Update a msg)) = copyStatus a \/
  msg = clearCopyStatusMsg \/
  (state a = StateCommentDetail /\ (msg = KeyMsg "c" \/ msg = KeyMsg "t")).
Proof.
  unfold Update. split_cases;
    lazymatch goal with
    | |- _ \/ clearCopyStatusMsg = clearCopyStatusMsg \/ _ => right; left; reflexivity
    | |- copyStatus (fst (handleCopyPrompt _)) = _ \/ _ =>
        right; right; split; [apply inDetail_true; assumption|];
        left; f_equal; apply key_in_single; assumption
    | |- copyStatus (fst (handleTogglePromptMode _)) = _ \/ _ =>
        right; right; split; [apply inDetail_true; assumption|];
        right; f_equal; apply key_in_single; assumption
    | |- _ =>
        left;
        unfold handleBack, handleEnter, handleToggleReplies, updateCurrent;
        split_cases; reflexivity
    end.
Qed.

(** X9.  Each setting changes on its own event only.  The prompt mode
    changes on the key [t] in the comment detail and on nothing else;
    whether replies are shown changes on the key [r] in the list of
    comments and on nothing else; the status line changes on the keys
    [c] and [t] in the comment detail and when a clearing tick arrives,
    whichever key scheduled the tick. *)
Theorem settings_change_on_their_events (a : App E) (msg : Msg) :
  (useSimplePrompt (fst (Update a msg)) <> useSimplePrompt a ->
   msg = KeyMsg "t" /\ state a = StateCommentDetail) /\
  (showReplies (fst (Update a msg)) <> showReplies a ->
   msg = KeyMsg "r" /\ state a = StateComments) /\
  (copyStatus (fst (Update a msg)) <> copyStatus a ->
   msg = clearCopyStatusMsg \/
   (state a = StateCommentDetail /\ (msg = KeyMsg "c" \/ msg = KeyMsg "t"))).
Proof.
  conjuncts; intros Hneq.
  - destruct (Update_useSimplePrompt a msg) as [H|H]; [contradiction | exact H].
  - destruct (Update_showReplies a msg) as [H|H]; [contradiction | exact H].
  - destruct (Update_copyStatus a msg) as [H|H]; [contradiction | exact H].
Qed.

(** *** The loading frame *)

Lemma Update_loading (a : App E) (msg : Msg) :
  loading a = true -> is_result msg = false -> loading (fst (Update a msg)) = true.
Proof.
  intros Hl Hm. destruct msg; try discriminate Hm; unfold Update;
    split_cases;
    unfold handleBack, handleEnter, handleCopyPrompt, handleTogglePromptMode,
      handleToggleReplies, updateCurrent;
    split_cases; read_fields; first [reflexivity | exact Hl].
Qed.

Lemma View_loading (a : App E) :
  loading a = true -> View a = (a, Render [Align_Center] "Loading...").
Proof. intros Hl. unfold View. now rewrite Hl. Qed.

Lemma after_loading (a : App E) (msg : Msg) :
  loading a = true -> is_result msg = false -> loading (after a msg) = true.
Proof.
  intros Hl Hm. rewrite NavFacts.after_eq.
  pose proof (proj2 (NavFacts.View_nav (fst (Update a msg)))) as Hv.
  unfold status in Hv. injection Hv as Hv _. rewrite Hv.
  now apply Update_loading.
Qed.

(** X10.  The loading frame stays until a fetch result arrives.  While
    the loading flag is set, no key, resize or tick clears it, and every
    frame is the text [Loading...] and nothing else; the events are
    handled all the same, unseen. *)
Theorem loading_frame_persists (msgs : list Msg) :
  forall a : App E,
    loading a = true -> no_result msgs = true ->
    loading (run a msgs) = true /\
    forall msg, is_result msg = false ->
      snd (turn (run a msgs) msg) = Render [Align_Center] "Loading...".
Proof.
  induction msgs as [|m msgs IH]; intros a Hl Hn.
  - split; [exact Hl|]. intros msg Hm. simpl. unfold turn.
    pose proof (Update_loading a msg Hl Hm) as Hu.
    destruct (Update a msg) as [a1 cmd]. simpl in Hu.
    now rewrite (View_loading a1 Hu).
  - unfold no_result in Hn. simpl in Hn. apply andb_true_iff in Hn.
    destruct Hn as [Hm Hn]. apply negb_true_iff in Hm.
    simpl. apply IH; [|exact Hn]. now apply after_loading.
Qed.

(** *** Keys that do not reach the list *)

(** X6.  The quit keys, Enter and, in the list of comments, the replies
    key are handled before the list sees them, also while the filter
    prompt of the list is open: [q] typed into the prompt quits, and
    Enter and [r] leave the three lists, with the typed filter, as they
    were. *)
Theorem keys_bypass_filter (a : App E) :
  Update a (KeyMsg "q") = (a, Quit) /\
  Update a (KeyMsg "ctrl+c") = (a, Quit) /\
  (repoList (fst (Update a (KeyMsg "enter"))) = repoList a /\
   prList (fst (Update a (KeyMsg "enter"))) = prList a /\
   commentList (fst (Update a (KeyMsg "enter"))) = commentList a) /\
  (state a = StateComments ->
   fst (Update a (KeyMsg "r")) = set_loading true (set_showReplies (negb (showReplies a)) a)).
Proof.
  conjuncts; try reflexivity.
  1-3: rewrite Update_enter; unfold handleEnter; split_cases; reflexivity.
  intros Hs. rewrite Update_r, Hs. reflexivity.
Qed.

(** *** Entering the detail *)

Section Viewport.

Context {VL : ViewportLaws E}.


End Viewport.

(** *** Results *)

Section Results.

Context {L : EnvLaws E}.

Lemma Update_repos_items (a : App E) (repos : list Repository) :
  list_Items (repoList (fst (Update a (ReposMsg repos None))))
  = map (fun r => {| Repo := r |}) repos.
Proof.
  unfold Update, updateCurrent. read_fields.
  destruct (state a);
    match goal with
    | |- context [list_Update ?l ?m] =>
        pose proof (list_Items_Update _ l m) as Hu; destruct (list_Update l m);
          cbn in Hu |- *; rewrite ?Hu
    | |- context [viewport_Update ?v ?m] => destruct (viewport_Update v m); cbn
    end; apply list_Items_SetItems.
Qed.

Lemma Update_prs_items (a : App E) (prs : list PullRequest) :
  list_Items (prList (fst (Update a (PRsMsg prs None))))
  = map (fun p => {| PR := p |}) prs.
Proof.
  unfold Update, updateCurrent. read_fields.
  destruct (state a);
    match goal with
    | |- context [list_Update ?l ?m] =>
        pose proof (list_Items_Update _ l m) as Hu; destruct (list_Update l m);
          cbn in Hu |- *; rewrite ?Hu
    | |- context [viewport_Update ?v ?m] => destruct (viewport_Update v m); cbn
    end; apply list_Items_SetItems.
Qed.

Lemma Update_result_flags (a : App E) (msg : Msg) :
  ok_result msg = true ->
  loading (fst (Update a msg)) = false /\ nav (fst (Update a msg)) = nav a /\
  err (fst (Update a msg)) = err a.
Proof.
  intros Hm.
  destruct msg as [| |repos [e|]|prs [e|]|comments [e|]| |]; try discriminate Hm;
    unfold Update; cbv zeta;
    match goal with
    | |- context [updateCurrent ?b ?m] =>
        destruct (NavFacts.updateCurrent_nav b m) as [Hn Hst];
        unfold status in Hst; injection Hst as Hl He;
        conjuncts; [exact Hl | rewrite Hn; reflexivity | exact He]
    end.
Qed.

(** X5.  A fetch result is applied whatever the application is showing:
    the handler does not ask which level is current, nor for which
    repository or pull request the fetch was issued.  A result without
    error replaces the items of its list with the items received,
    clears the loading flag and leaves the level and the selection
    alone; so a result that arrives after the user has moved on fills
    its list all the same, and ends the loading frame of a later
    fetch. *)
Theorem results_apply_at_any_level (a : App E) :
  (forall repos,
     let a1 := fst (Update a (ReposMsg repos None)) in
     list_Items (repoList a1) = map (fun r => {| Repo := r |}) repos /\
     loading a1 = false /\ nav a1 = nav a) /\
  (forall prs,
     let a1 := fst (Update a (PRsMsg prs None)) in
     list_Items (prList a1) = map (fun p => {| PR := p |}) prs /\
     loading a1 = false /\ nav a1 = nav a) /\
  (forall comments,
     let a1 := fst (Update a (CommentsMsg comments None)) in
     list_Items (commentList a1)
     = map (fun c => {| Comment := c |}) (visible (showReplies a) comments) /\
     loading a1 = false /\ nav a1 = nav a).
Proof.
  conjuncts; intros l a1; subst a1.
  - split; [apply Update_repos_items|].
    destruct (Update_result_flags a (ReposMsg l None) eq_refl) as (Hl & Hn & _). now split.
  - split; [apply Update_prs_items|].
    destruct (Update_result_flags a (PRsMsg l None) eq_refl) as (Hl & Hn & _). now split.
  - split; [apply NavFacts.Update_comments_items|].
    destruct (Update_result_flags a (CommentsMsg l None) eq_refl) as (Hl & Hn & _). now split.
Qed.

(** X4.  In every list of comments that events lead to from the start,
    the replies key flips the setting, sets the loading flag and issues
    the fetch of the comments of the current pull request again; the
    list itself is filtered only when the result arrives, by the new
    setting.  Pressing the key twice restores the setting. *)
Theorem toggle_replies_refetches (msgs : list Msg) (comments : list PullRequestComment) :
  let a := run (E:=E) New msgs in
  state a = StateComments ->
  exists repo pr,
    currentRepo a = Some repo /\ currentPR a = Some pr /\
    Update a (KeyMsg "r")
    = (set_loading true (set_showReplies (negb (showReplies a)) a),
       CmdFetchComments repo pr) /\
    commentList (after a (KeyMsg "r")) = commentList a /\
    list_Items (commentList (fst (Update (after a (KeyMsg "r")) (CommentsMsg comments None))))
    = map (fun c => {| Comment := c |}) (visible (negb (showReplies a)) comments) /\
    showReplies (after (after a (KeyMsg "r")) (KeyMsg "r")) = showReplies a.
Proof.
  intros a Hs. pose proof (reachable_inv msgs) as Hinv. fold a in Hinv. clearbody a.
  destruct (inv_selection a Hinv) as (Hr & Hp & _). rewrite Hs in Hr, Hp.
  destruct Hr as [repo Hrepo]; [simpl; lia|].
  destruct Hp as [pr Hpr]; [simpl; lia|].
  exists repo, pr.
  assert (Hu : forall b : App E,
             state b = StateComments -> currentRepo b = Some repo -> currentPR b = Some pr ->
             Update b (KeyMsg "r")
             = (set_loading true (set_showReplies (negb (showReplies b)) b),
                CmdFetchComments repo pr)).
  { intros b Hbs Hbr Hbp. rewrite Update_r, Hbs. cbn [State_eqb].
    unfold handleToggleReplies, fetchComments. read_fields. now rewrite Hbr, Hbp. }
  assert (Ha : forall b : App E,
             state b = StateComments -> currentRepo b = Some repo -> currentPR b = Some pr ->
             after b (KeyMsg "r")
             = set_loading true (set_showReplies (negb (showReplies b)) b)).
  { intros b Hbs Hbr Hbp. rewrite NavFacts.after_eq, (Hu b Hbs Hbr Hbp).
    apply View_blank. now left. }
  conjuncts; try assumption.
  - now apply Hu.
  - now rewrite Ha.
  - rewrite Ha by assumption. rewrite NavFacts.Update_comments_items. reflexivity.
  - rewrite (Ha a) by assumption. rewrite Ha by assumption. read_fields.
    apply negb_involutive.
Qed.

End Results.

End Handlers.

(** *** The statements on the executable environment *)

Lemma simple_env_viewport : ViewportLaws sim.simple_env.
Proof. split. intros s v. split; reflexivity. Qed.

Lemma enter_issues_fetch_witness :
  exists repo,
    currentRepo sim.at_prs = Some repo /\
    Update sim.at_prs (KeyMsg "enter")
    = (set_loading true
         (set_state StateComments (set_currentPR (Some (sim.pull 7)) sim.at_prs)),
       CmdFetchComments repo (sim.pull 7)).
Proof.
  exact (proj2 (enter_issues_fetch (E:=sim.simple_env) sim.to_prs)
           {| PR := sim.pull 7 |} eq_refl eq_refl).
Defined.


Lemma enter_without_selection_witness :
  Update (New (E:=sim.simple_env)) (KeyMsg "enter") = (New, CmdNil).
Proof.
  apply (enter_without_selection (E:=sim.simple_env) New). reflexivity.
Defined.

Lemma copy_in_detail_witness :
  exists repo pr comment,
    currentRepo sim.at_detail = Some repo /\ currentPR sim.at_detail = Some pr /\
    currentComment sim.at_detail = Some comment /\
    Update sim.at_detail (KeyMsg "c")
    = (set_copyStatus (copied "Full") sim.at_detail, Tick 3 clearCopyStatusMsg).
Proof.
  apply (copy_in_detail (E:=sim.simple_env) sim.to_detail). reflexivity.
Defined.

Lemma toggle_replies_refetches_witness :
  exists repo pr,
    currentRepo sim.at_comments = Some repo /\ currentPR sim.at_comments = Some pr /\
    Update sim.at_comments (KeyMsg "r")
    = (set_loading true
         (set_showReplies (negb (showReplies sim.at_comments)) sim.at_comments),
       CmdFetchComments repo pr) /\
    commentList (after sim.at_comments (KeyMsg "r")) = commentList sim.at_comments /\
    list_Items
      (commentList
         (fst (Update (after sim.at_comments (KeyMsg "r"))
                 (CommentsMsg sim.five_comments None))))
    = map (fun c => {| Comment := c |})
        (visible (negb (showReplies sim.at_comments)) sim.five_comments) /\
    showReplies (after (after sim.at_comments (KeyMsg "r")) (KeyMsg "r"))
    = showReplies sim.at_comments.
Proof.
  apply (toggle_replies_refetches (E:=sim.simple_env) (L:=NavFacts.simple_env_laws)
           sim.to_comments sim.five_comments).
  reflexivity.
Defined.

Lemma results_apply_at_any_level_witness :
  let a1 := fst (Update sim.at_repos (PRsMsg [sim.pull 7] None)) in
  state sim.at_repos = StateRepos /\
  list_Items (prList a1) = [{| PR := sim.pull 7 |}] /\
  loading a1 = false /\ nav a1 = nav sim.at_repos.
Proof.
  intros a1. split; [reflexivity|].
  exact (proj1 (proj2 (results_apply_at_any_level (E:=sim.simple_env)
                         (L:=NavFacts.simple_env_laws) sim.at_repos))
           [sim.pull 7]).
Defined.

Lemma keys_bypass_filter_witness :
  list_SettingFilter (commentList (sim.prompting sim.at_comments)) = true /\
  fst (Update (sim.prompting sim.at_comments) (KeyMsg "r"))
  = set_loading true
      (set_showReplies (negb (showReplies (sim.prompting sim.at_comments)))
         (sim.prompting sim.at_comments)).
Proof.
  split; [reflexivity|].
  apply (proj2 (proj2 (proj2 (keys_bypass_filter (sim.prompting sim.at_comments))))).
  reflexivity.
Defined.

Lemma frame_lags_height_witness :
  let a := fst (Update sim.at_detail (WindowSizeMsg 100 30)) in
  snd (View (fst (View a)))
  = snd (View (set_commentViewport
                 (set_Height (Z.max (isub (height a) 6) 1) (commentViewport a)) a)).
Proof.
  intros a.
  apply (proj2 (frame_lags_height a)); reflexivity.
Defined.

Lemma settings_change_on_their_events_witness :
  KeyMsg "t" = KeyMsg "t" /\ state sim.at_detail = StateCommentDetail.
Proof.
  apply (proj1 (settings_change_on_their_events sim.at_detail (KeyMsg "t"))).
  vm_compute. discriminate.
Defined.

Lemma loading_frame_persists_witness :
  let a := fst (Update sim.at_repos (KeyMsg "enter")) in
  state (run a [KeyMsg "esc"; KeyMsg "j"]) = StateRepos /\
  loading (run a [KeyMsg "esc"; KeyMsg "j"]) = true /\
  snd (turn (run a [KeyMsg "esc"; KeyMsg "j"]) (WindowSizeMsg 100 30))
  = Render (Env:=sim.simple_env) [Align_Center] "Loading...".
Proof.
  intros a. split; [reflexivity|].
  destruct (loading_frame_persists (E:=sim.simple_env) [KeyMsg "esc"; KeyMsg "j"] a
              eq_refl eq_refl) as [Hl Hf].
  split; [exact Hl | apply Hf; reflexivity].
Defined.


End NavExtra.

(* ================================================================= *)
(** ** From the answer of the service to the list on the screen *)

Module PipelineExtra.

Import github tea ui ghclient app spec terms.

Lemma StronglySorted_map_intro {A B : Type} (R : A -> A -> Prop) (f : B -> A)
    (l : list B) :
  StronglySorted (fun x y => R (f x) (f y)) l -> StronglySorted R (map f l).
Proof.
  induction 1 as [|x l _ IH Hx]; simpl; constructor; [exact IH|].
  rewrite Forall_forall in *. intros y Hy. apply in_map_iff in Hy.
  destruct Hy as (z & <- & Hz). now apply Hx.
Qed.

Lemma StronglySorted_weaken {A : Type} (R R' : A -> A -> Prop) (l : list A) :
  (forall x y, R x y -> R' x y) -> StronglySorted R l -> StronglySorted R' l.
Proof.
  intros Himp. induction 1 as [|x l _ IH Hx]; constructor; [exact IH|].
  eapply Forall_impl; [|exact Hx]. intros y. apply Himp.
Qed.

Lemma commentLess_not_older (x y : PullRequestComment) :
  commentLess y x = false -> not_older x y.
Proof.
  unfold commentLess, not_older, time.After.
  destruct (c_UpdatedAt y), (c_UpdatedAt x); try discriminate; try easy.
  rewrite Z.gtb_ltb, Z.ltb_ge. easy.
Qed.

Section Pipeline.

Context {S : Sorter} {SL : SorterLaws S} {V : Service} {E : Env} {L : EnvLaws E}.

(** X14.  When the fetch of the pull requests of a repository succeeds
    and its result is handled, the list of pull requests holds the pull
    requests of the answer and no other, each as often as the answer
    holds it, in descending order of their numbers. *)
Theorem displayed_prs_descending (a : App E) (repo : Repository)
    (prs : list PullRequest) :
  PullRequests_List (GetLogin (repo_Owner repo)) (str (repo_Name repo)) = inr prs ->
  let shown := list_Items (prList (fst (Update a (FetchPRs (Some repo))))) in
  Permutation prs (map PR shown) /\
  StronglySorted
    (fun x y => int (pr_Number (PR y)) <= int (pr_Number (PR x))) shown.
Proof.
  intros Hp shown. subst shown. unfold FetchPRs. rewrite Hp.
  rewrite NavExtra.Update_prs_items. split.
  - rewrite map_map. simpl. rewrite map_id. apply sort_Slice_perm.
  - apply StronglySorted_map_intro. simpl.
    eapply StronglySorted_weaken; [|apply sort_Slice_sorted, FetchFacts.prLess_order].
    intros x y. unfold prLess. rewrite Z.gtb_ltb, Z.ltb_ge. easy.
Qed.

(** X15.  When the fetch of the comments of a pull request succeeds and
    its result is handled, the list of comments holds the comments of
    the answer that the replies setting lets through and no other,
    ordered by update time, latest first, with the comments that carry
    no update time last. *)
Theorem displayed_comments_latest_first (a : App E) (repo : Repository)
    (pr : PullRequest) (comments : list PullRequestComment) :
  PullRequests_ListComments (GetLogin (repo_Owner repo)) (str (repo_Name repo))
    (int (pr_Number pr)) = inr comments ->
  let shown :=
    list_Items (commentList (fst (Update a (FetchComments (Some repo) (Some pr))))) in
  Permutation (visible (showReplies a) comments) (map Comment shown) /\
  StronglySorted (fun x y => not_older (Comment x) (Comment y)) shown.
Proof.
  intros Hc shown. subst shown. unfold FetchComments. rewrite Hc.
  cbv zeta. rewrite NavFacts.Update_comments_items.
  assert (Hs : StronglySorted not_older (sort_Slice commentLess comments)).
  { eapply StronglySorted_weaken;
      [|apply sort_Slice_sorted, FetchFacts.commentLess_order].
    intros x y. apply commentLess_not_older. }
  split.
  - rewrite map_map. simpl. rewrite map_id. unfold visible.
    destruct (showReplies a).
    + apply sort_Slice_perm.
    + apply FetchExtra.Permutation_filter, sort_Slice_perm.
  - apply StronglySorted_map_intro. simpl. unfold visible.
    destruct (showReplies a); [exact Hs|].
    apply FetchExtra.StronglySorted_filter, Hs.
Qed.

(** X22.  A failure of the service reaches the screen as it is.  When
    the request behind a fetch fails, the result handled by [Update]
    stores the error of the service, issues no command, and the frame
    of the turn is the text [Error:] with the message of that error, at
    whatever level the application stands. *)
Theorem fetch_failure_reaches_screen (a : App E) (e : error) :
  (Repositories_List = inl e ->
   turn a FetchRepos
   = (set_err (Some e) (set_loading false a), CmdNil,
      Render [Foreground "9"] ("Error: " ++ e)%string)) /\
  (forall repo,
     PullRequests_List (GetLogin (repo_Owner repo)) (str (repo_Name repo)) = inl e ->
     turn a (FetchPRs (Some repo))
     = (set_err (Some e) (set_loading false a), CmdNil,
        Render [Foreground "9"] ("Error: " ++ e)%string)) /\
  (forall repo pr,
     PullRequests_ListComments (GetLogin (repo_Owner repo)) (str (repo_Name repo))
       (int (pr_Number pr)) = inl e ->
     turn a (FetchComments (Some repo) (Some pr))
     = (set_err (Some e) (set_loading false a), CmdNil,
        Render [Foreground "9"] ("Error: " ++ e)%string)).
Proof.
  conjuncts.
  - intros H. unfold FetchRepos. rewrite H. reflexivity.
  - intros repo H. unfold FetchPRs. rewrite H. reflexivity.
  - intros repo pr H. unfold FetchComments. rewrite H. reflexivity.
Qed.

End Pipeline.

Lemma fetch_failure_reaches_screen_witness :
  turn sim.at_repos (@FetchPRs insertion_sorter samples.down_service (Some sim.bare_repo))
  = (set_err (Some "timeout"%string) (set_loading false sim.at_repos), CmdNil,
     Render (Env:=sim.simple_env) [Foreground "9"] "Error: timeout"%string).
Proof.
  apply (proj1 (proj2 (fetch_failure_reaches_screen (S:=insertion_sorter)
                         (V:=samples.down_service) sim.at_repos "timeout"%string))
           sim.bare_repo).
  reflexivity.
Defined.

Lemma displayed_prs_descending_witness :
  let shown :=
    list_Items
      (prList (fst (Update sim.at_prs
                      (@FetchPRs insertion_sorter sim.sample_service
                         (Some sim.bare_repo))))) in
  Permutation [sim.pull 3; sim.pull 7; sim.pull 5] (map PR shown) /\
  StronglySorted
    (fun x y => int (pr_Number (PR y)) <= int (pr_Number (PR x))) shown.
Proof.
  apply (displayed_prs_descending (S:=insertion_sorter)
           (SL:=FetchFacts.insertion_sorter_laws) (V:=sim.sample_service)
           (E:=sim.simple_env) (L:=NavFacts.simple_env_laws) sim.at_prs sim.bare_repo).
  reflexivity.
Defined.

Lemma displayed_comments_latest_first_witness :
  let shown :=
    list_Items
      (commentList
         (fst (Update sim.at_comments
                 (@FetchComments insertion_sorter sim.sample_service
                    (Some sim.bare_repo) (Some (sim.pull 7)))))) in
  Permutation
    (visible (showReplies sim.at_comments)
       [sim.undated; sim.top_level 1; sim.top_level 5; sim.reply_to 1 2])
    (map Comment shown) /\
  StronglySorted (fun x y => not_older (Comment x) (Comment y)) shown.
Proof.
  apply (displayed_comments_latest_first (S:=insertion_sorter)
           (SL:=FetchFacts.insertion_sorter_laws) (V:=sim.sample_service)
           (E:=sim.simple_env) (L:=NavFacts.simple_env_laws)
           sim.at_comments sim.bare_repo (sim.pull 7)).
  reflexivity.
Defined.

End PipelineExtra.
